(** * Restrictiveness ranking of security context constraints

    A shallow embedding of [pkg/security/scc/byrestrictions.go]: the point
    model that ranks security context constraints (SCCs) from most to least
    restrictive, and the comparator [ByRestrictions.Less] built on it.

    The source file carries two revisions of the same algorithm.  The later
    one (types from package [securityapi], capability base 5000) is embedded
    at top level; the earlier one (types from package [kapi], capability base
    500) is embedded in [Module KapiRevision]. *)

From Stdlib Require Import ZArith List String Bool Lia Permutation.
Import ListNotations.

#[local] Open Scope string_scope.
#[local] Open Scope list_scope.
#[local] Open Scope Z_scope.

(** ** Data model *)

(** [kapi.Capability] is a Go string type. *)
Definition Capability : Type := string.

(** Modelled from the spec: the constant [kapi.CapabilityAll] is declared in
    the API package, outside this repository's sources.  The spec names the
    two all-capabilities tokens as "ALL" and "*"; the code compares against
    the literal "ALL" next to [kapi.CapabilityAll], and the test case
    "allow star" expects the list ["*"] to receive the allow-all weight, so
    the constant is the star token. *)
Definition CapabilityAll : Capability := "*".

(** [securityapi.FSType] is a Go string type.  The switch of
    [volumePointValue] names eight of its constants; Go rejects duplicate
    constant cases in one switch, so the eight are pairwise distinct.  Every
    other string value falls in the default case and is carried by
    [FSTypeOther] (which stands for a string different from the eight). *)
Inductive FSType : Type :=
| FSTypeHostPath
| FSTypeAll
| FSTypeSecret
| FSTypeConfigMap
| FSTypeEmptyDir
| FSTypeDownwardAPI
| FSProjected
| FSTypeNone
| FSTypeOther (name : string).

(** [securityapi.SELinuxContextStrategyType]: a string type with two
    constants named by the switch of [pointValue]; any other value (the zero
    value included) is [SELinuxStrategyOther]. *)
Inductive SELinuxContextStrategyType : Type :=
| SELinuxStrategyRunAsAny
| SELinuxStrategyMustRunAs
| SELinuxStrategyOther (tag : string).

(** [securityapi.RunAsUserStrategyType], in the same way. *)
Inductive RunAsUserStrategyType : Type :=
| RunAsUserStrategyRunAsAny
| RunAsUserStrategyMustRunAsNonRoot
| RunAsUserStrategyMustRunAsRange
| RunAsUserStrategyMustRunAs
| RunAsUserStrategyOther (tag : string).

(** The [Type] field of the two strategy option structs ([Type] is reserved
    in Rocq, hence the prefixed field names). *)
Record SELinuxContextStrategyOptions : Type :=
  { SELinuxType : SELinuxContextStrategyType }.

Record RunAsUserStrategyOptions : Type :=
  { RunAsUserType : RunAsUserStrategyType }.

(** The fields of [SecurityContextConstraints] that the ranking reads. *)
Record SecurityContextConstraints : Type := mkSCC
  { AllowPrivilegedContainer : bool;
    Volumes : list FSType;
    SELinuxContext : SELinuxContextStrategyOptions;
    RunAsUser : RunAsUserStrategyOptions;
    DefaultAddCapabilities : list Capability;
    AllowedCapabilities : list Capability;
    RequiredDropCapabilities : list Capability }.

(** Functional field updates, used to state "identical except for ...". *)
Definition withPrivileged (b : bool) (c : SecurityContextConstraints) :=
  mkSCC b (Volumes c) (SELinuxContext c) (RunAsUser c)
        (DefaultAddCapabilities c) (AllowedCapabilities c)
        (RequiredDropCapabilities c).

Definition withVolumes (vs : list FSType) (c : SecurityContextConstraints) :=
  mkSCC (AllowPrivilegedContainer c) vs (SELinuxContext c) (RunAsUser c)
        (DefaultAddCapabilities c) (AllowedCapabilities c)
        (RequiredDropCapabilities c).

Definition withSELinux (t : SELinuxContextStrategyType)
           (c : SecurityContextConstraints) :=
  mkSCC (AllowPrivilegedContainer c) (Volumes c) {| SELinuxType := t |}
        (RunAsUser c) (DefaultAddCapabilities c) (AllowedCapabilities c)
        (RequiredDropCapabilities c).

Definition withRunAsUser (t : RunAsUserStrategyType)
           (c : SecurityContextConstraints) :=
  mkSCC (AllowPrivilegedContainer c) (Volumes c) (SELinuxContext c)
        {| RunAsUserType := t |} (DefaultAddCapabilities c)
        (AllowedCapabilities c) (RequiredDropCapabilities c).

Definition withDefaultAdd (l : list Capability)
           (c : SecurityContextConstraints) :=
  mkSCC (AllowPrivilegedContainer c) (Volumes c) (SELinuxContext c)
        (RunAsUser c) l (AllowedCapabilities c) (RequiredDropCapabilities c).

Definition withAllowed (l : list Capability)
           (c : SecurityContextConstraints) :=
  mkSCC (AllowPrivilegedContainer c) (Volumes c) (SELinuxContext c)
        (RunAsUser c) (DefaultAddCapabilities c) l
        (RequiredDropCapabilities c).

Definition withRequiredDrop (l : list Capability)
           (c : SecurityContextConstraints) :=
  mkSCC (AllowPrivilegedContainer c) (Volumes c) (SELinuxContext c)
        (RunAsUser c) (DefaultAddCapabilities c) (AllowedCapabilities c) l.

(** The Go zero value [SecurityContextConstraints{}]: nil slices, empty
    strategy tags, no privilege. *)
Definition zeroSCC : SecurityContextConstraints :=
  mkSCC false [] {| SELinuxType := SELinuxStrategyOther EmptyString |}
        {| RunAsUserType := RunAsUserStrategyOther EmptyString |} [] [] [].

(** Go's [len] on a slice.  Scores are Go [int]s, modelled as unbounded
    integers; [Module Int64] below shows that the 64-bit evaluation agrees on
    every slice that fits in memory. *)
Definition len {A : Type} (l : list A) : Z := Z.of_nat (List.length l).

(** ** The scoring functions (later revision) *)

(** One iteration of the loop of [volumePointValue] on the pair
    [(hasHostVolume, hasNonTrivialVolume)].  The [break] of the first case
    leaves the switch only: the loop goes on over the remaining volumes. *)
Definition volumeStep (st : bool * bool) (v : FSType) : bool * bool :=
  let '(hasHostVolume, hasNonTrivialVolume) := st in
  match v with
  | FSTypeHostPath | FSTypeAll => (true, hasNonTrivialVolume)
  | FSTypeSecret | FSTypeConfigMap | FSTypeEmptyDir
  | FSTypeDownwardAPI | FSProjected | FSTypeNone =>
      (hasHostVolume, hasNonTrivialVolume)
  | FSTypeOther _ => (hasHostVolume, true)
  end.

Definition volumePointValue (scc : SecurityContextConstraints) : Z :=
  let '(hasHostVolume, hasNonTrivialVolume) :=
    fold_left volumeStep (Volumes scc) (false, false) in
  if hasHostVolume then 100000
  else if hasNonTrivialVolume then 50000
  else 0.

(** [hasCap] checks for needle in haystack. *)
Fixpoint hasCap (needle : Capability) (haystack : list Capability) : bool :=
  match haystack with
  | [] => false
  | c :: rest => if String.eqb needle c then true else hasCap needle rest
  end.

(** The running total of [capabilitiesPointValue] before it is clamped. *)
Definition capabilitiesPoints (scc : SecurityContextConstraints) : Z :=
  let points := 5000 in
  let points := points + 300 * len (DefaultAddCapabilities scc) in
  let points :=
    if hasCap CapabilityAll (AllowedCapabilities scc) then points + 4000
    else if hasCap "ALL" (AllowedCapabilities scc) then points + 4000
    else points + 10 * len (AllowedCapabilities scc) in
  let points :=
    if hasCap "ALL" (RequiredDropCapabilities scc) then points - 3000
    else points - 50 * len (RequiredDropCapabilities scc) in
  points.

Definition capabilitiesPointValue (scc : SecurityContextConstraints) : Z :=
  let points := capabilitiesPoints scc in
  if points >? 10000 then 10000
  else if points <? 0 then 0
  else points.

Definition pointValue (constraint : SecurityContextConstraints) : Z :=
  let points := 0 in
  let points :=
    if AllowPrivilegedContainer constraint then points + 200000 else points in
  let points := points + volumePointValue constraint in
  let points := points + capabilitiesPointValue constraint in
  let points :=
    match SELinuxType (SELinuxContext constraint) with
    | SELinuxStrategyRunAsAny => points + 40000
    | SELinuxStrategyMustRunAs => points + 10000
    | SELinuxStrategyOther _ => points
    end in
  let points :=
    match RunAsUserType (RunAsUser constraint) with
    | RunAsUserStrategyRunAsAny => points + 40000
    | RunAsUserStrategyMustRunAsNonRoot => points + 30000
    | RunAsUserStrategyMustRunAsRange => points + 20000
    | RunAsUserStrategyMustRunAs => points + 10000
    | RunAsUserStrategyOther _ => points
    end in
  points.

(** ** The comparator *)

(** [ByRestrictions] is a slice of pointers to SCCs; [None] is a nil
    pointer. *)
Definition ByRestrictions : Type := list (option SecurityContextConstraints).

Definition Len (s : ByRestrictions) : Z := len s.

(** [s[i]]: [None] when the index is out of range (a run-time panic). *)
Definition index (s : ByRestrictions) (i : Z)
  : option (option SecurityContextConstraints) :=
  if i <? 0 then None else nth_error s (Z.to_nat i).

(** The comparison that [Less] makes once both elements are read. *)
Definition less (a b : SecurityContextConstraints) : bool :=
  pointValue a <? pointValue b.

(** [Less]: [None] stands for a run-time panic (index out of range, or a nil
    pointer dereferenced by [pointValue]). *)
Definition Less (s : ByRestrictions) (i j : Z) : option bool :=
  match index s i, index s j with
  | Some (Some a), Some (Some b) => Some (less a b)
  | _, _ => None
  end.

(** [Swap]: exchanges the two elements; [None] on an index out of range. *)
Fixpoint update {A : Type} (l : list A) (n : nat) (x : A) : list A :=
  match l, n with
  | [], _ => []
  | _ :: t, O => x :: t
  | h :: t, S m => h :: update t m x
  end.

Definition Swap (s : ByRestrictions) (i j : Z) : option ByRestrictions :=
  match index s i, index s j with
  | Some a, Some b =>
      Some (update (update s (Z.to_nat i) b) (Z.to_nat j) a)
  | _, _ => None
  end.

(** ** The earlier revision (lines 1-117 of the source file) *)

Module KapiRevision.

Definition volumePointValue (scc : SecurityContextConstraints) : Z :=
  let '(hasHostVolume, hasNonTrivialVolume) :=
    fold_left volumeStep (Volumes scc) (false, false) in
  if hasHostVolume then 10000
  else if hasNonTrivialVolume then 5000
  else 0.

Definition capabilitiesPoints (scc : SecurityContextConstraints) : Z :=
  let points := 500 in
  let points := points + 30 * len (DefaultAddCapabilities scc) in
  let points :=
    if hasCap CapabilityAll (AllowedCapabilities scc) then points + 300
    else points + 10 * len (AllowedCapabilities scc) in
  let points := points - 50 * len (RequiredDropCapabilities scc) in
  points.

Definition capabilitiesPointValue (scc : SecurityContextConstraints) : Z :=
  let points := capabilitiesPoints scc in
  if points >? 1000 then 1000
  else if points <? 0 then 0
  else points.

Definition pointValue (constraint : SecurityContextConstraints) : Z :=
  let points := 0 in
  let points :=
    if AllowPrivilegedContainer constraint then points + 200000
    else points in
  let points := points + volumePointValue constraint in
  let points := points + capabilitiesPointValue constraint in
  let points :=
    match SELinuxType (SELinuxContext constraint) with
    | SELinuxStrategyRunAsAny => points + 40000
    | SELinuxStrategyMustRunAs => points + 10000
    | SELinuxStrategyOther _ => points
    end in
  let points :=
    match RunAsUserType (RunAsUser constraint) with
    | RunAsUserStrategyRunAsAny => points + 40000
    | RunAsUserStrategyMustRunAsNonRoot => points + 30000
    | RunAsUserStrategyMustRunAsRange => points + 20000
    | RunAsUserStrategyMustRunAs => points + 10000
    | RunAsUserStrategyOther _ => points
    end in
  points.

End KapiRevision.

(** ** Evaluation on 64-bit machine integers

    The same functions with every arithmetic step wrapped to a signed 64-bit
    [int]; the lemmas [int64_capabilitiesPointValue_exact] and
    [int64_pointValue_exact] show they agree with the functions above as soon
    as the three capability slices have fewer than 2^48 entries, which is
    every slice a 64-bit address space can hold. *)

Module Int64.

Definition wrap (z : Z) : Z := (z + 2 ^ 63) mod 2 ^ 64 - 2 ^ 63.

Definition add (a b : Z) : Z := wrap (a + b).
Definition sub (a b : Z) : Z := wrap (a - b).
Definition mul (a b : Z) : Z := wrap (a * b).

Definition capabilitiesPointValue (scc : SecurityContextConstraints) : Z :=
  let points := 5000 in
  let points := add points (mul 300 (len (DefaultAddCapabilities scc))) in
  let points :=
    if hasCap CapabilityAll (AllowedCapabilities scc) then add points 4000
    else if hasCap "ALL" (AllowedCapabilities scc) then add points 4000
    else add points (mul 10 (len (AllowedCapabilities scc))) in
  let points :=
    if hasCap "ALL" (RequiredDropCapabilities scc) then sub points 3000
    else sub points (mul 50 (len (RequiredDropCapabilities scc))) in
  if points >? 10000 then 10000
  else if points <? 0 then 0
  else points.

Definition pointValue (constraint : SecurityContextConstraints) : Z :=
  let points := 0 in
  let points :=
    if AllowPrivilegedContainer constraint then add points 200000
    else points in
  let points := add points (volumePointValue constraint) in
  let points := add points (capabilitiesPointValue constraint) in
  let points :=
    match SELinuxType (SELinuxContext constraint) with
    | SELinuxStrategyRunAsAny => add points 40000
    | SELinuxStrategyMustRunAs => add points 10000
    | SELinuxStrategyOther _ => points
    end in
  let points :=
    match RunAsUserType (RunAsUser constraint) with
    | RunAsUserStrategyRunAsAny => add points 40000
    | RunAsUserStrategyMustRunAsNonRoot => add points 30000
    | RunAsUserStrategyMustRunAsRange => add points 20000
    | RunAsUserStrategyMustRunAs => add points 10000
    | RunAsUserStrategyOther _ => points
    end in
  points.

(** A slice that fits in a 64-bit address space. *)
Definition fits {A : Type} (l : list A) : Prop := len l < 2 ^ 48.

End Int64.

(** ** The terms of the sum, named

    The source adds its terms inline.  The functions below name each term so
    that statements can speak of "the SELinux term" or "the drop term"; the
    lemmas [pointValue_terms] and [capabilitiesPoints_terms] tie them to the
    embedded functions. *)

Definition privilegedPoints (c : SecurityContextConstraints) : Z :=
  if AllowPrivilegedContainer c then 200000 else 0.

Definition seLinuxPoints (t : SELinuxContextStrategyType) : Z :=
  match t with
  | SELinuxStrategyRunAsAny => 40000
  | SELinuxStrategyMustRunAs => 10000
  | SELinuxStrategyOther _ => 0
  end.

Definition runAsUserPoints (t : RunAsUserStrategyType) : Z :=
  match t with
  | RunAsUserStrategyRunAsAny => 40000
  | RunAsUserStrategyMustRunAsNonRoot => 30000
  | RunAsUserStrategyMustRunAsRange => 20000
  | RunAsUserStrategyMustRunAs => 10000
  | RunAsUserStrategyOther _ => 0
  end.

Definition defaultAddPoints (l : list Capability) : Z := 300 * len l.

Definition allowedPoints (l : list Capability) : Z :=
  if hasCap CapabilityAll l then 4000
  else if hasCap "ALL" l then 4000
  else 10 * len l.

Definition requiredDropPoints (l : list Capability) : Z :=
  if hasCap "ALL" l then 3000 else 50 * len l.

(** The clamp of [capabilitiesPointValue] as a closed formula. *)
Definition clamp (lo hi z : Z) : Z := Z.max lo (Z.min hi z).

(** A list of allowed capabilities that holds one of the two wildcard
    tokens. *)
Definition hasWildcard (l : list Capability) : bool :=
  hasCap CapabilityAll l || hasCap "ALL" l.

(** The volume kinds of the first case of the switch, and those of its
    second (do nothing) case. *)
Definition isHostVolume (v : FSType) : bool :=
  match v with
  | FSTypeHostPath | FSTypeAll => true
  | _ => false
  end.

Definition isTrivialVolume (v : FSType) : bool :=
  match v with
  | FSTypeSecret | FSTypeConfigMap | FSTypeEmptyDir
  | FSTypeDownwardAPI | FSProjected | FSTypeNone => true
  | _ => false
  end.

Definition isNonTrivialVolume (v : FSType) : bool :=
  negb (isHostVolume v) && negb (isTrivialVolume v).

(** ** Concrete profiles used below *)

Definition capSCC (def allow drop : list Capability)
  : SecurityContextConstraints :=
  withRequiredDrop drop (withAllowed allow (withDefaultAdd def zeroSCC)).

(** A privileged profile with nothing else set, and an unprivileged one with
    every other term at its maximum. *)
Definition barePrivileged : SecurityContextConstraints :=
  withPrivileged true zeroSCC.

Definition loadedUnprivileged : SecurityContextConstraints :=
  mkSCC false [FSTypeHostPath]
        {| SELinuxType := SELinuxStrategyRunAsAny |}
        {| RunAsUserType := RunAsUserStrategyRunAsAny |}
        (repeat "KILL" 17) ["*"] [].

(** [MustRunAs] with one hundred required drops, against an unrecognized
    SELinux strategy with seventeen default-added capabilities. *)
Definition mustRunAsAllDropped : SecurityContextConstraints :=
  withSELinux SELinuxStrategyMustRunAs
    (withRequiredDrop (repeat "KILL" 100) zeroSCC).

Definition unrecognizedManyAdded : SecurityContextConstraints :=
  withSELinux (SELinuxStrategyOther EmptyString)
    (withDefaultAdd (repeat "KILL" 17) zeroSCC).

Definition runAsAnyAllDropped : SecurityContextConstraints :=
  withSELinux SELinuxStrategyRunAsAny
    (withRequiredDrop (repeat "KILL" 100) zeroSCC).

(** A host path with every capability dropped, and trivial volumes with
    every other term at its maximum. *)
Definition hostPathAllDropped : SecurityContextConstraints :=
  withVolumes [FSTypeHostPath]
    (withRequiredDrop (repeat "KILL" 100) zeroSCC).

Definition loadedTrivialVolumes : SecurityContextConstraints :=
  withVolumes [FSTypeSecret; FSTypeEmptyDir] loadedUnprivileged.

(** Long lists without a wildcard. *)
Definition manyAllowed : list Capability := repeat "KILL" 401.
Definition manyDropped : list Capability := repeat "KILL" 61.

(** ** The test functions of [byrestrictions_test.go]

    Each test is embedded as the list of the failures it reports (one entry
    per [t.Errorf]), as a function of the implementation under test.  Go
    ranges over the maps in an unspecified order; the tables are kept here
    in the order they are written. *)

Module Tests.

Record Failure : Type :=
  { failedCase : string; expectedPoints : Z; actualPoints : Z }.

(** [if actualPoints != expectedPoints { t.Errorf(...) }] *)
Definition expect (name : string) (expected actual : Z) : list Failure :=
  if actual =? expected then []
  else [{| failedCase := name; expectedPoints := expected;
           actualPoints := actual |}].

(** [newSCC] of [TestPointValue]. *)
Definition newSCC (priv : bool) (seLinuxStrategy : SELinuxContextStrategyType)
           (userStrategy : RunAsUserStrategyType)
  : SecurityContextConstraints :=
  let scc := mkSCC false [] {| SELinuxType := seLinuxStrategy |}
                   {| RunAsUserType := userStrategy |} [] [] [] in
  if priv then withPrivileged true scc else scc.

Definition seLinuxStrategies : list (SELinuxContextStrategyType * Z) :=
  [(SELinuxStrategyRunAsAny, 40000); (SELinuxStrategyMustRunAs, 10000)].

Definition userStrategies : list (RunAsUserStrategyType * Z) :=
  [(RunAsUserStrategyRunAsAny, 40000);
   (RunAsUserStrategyMustRunAsNonRoot, 30000);
   (RunAsUserStrategyMustRunAsRange, 20000);
   (RunAsUserStrategyMustRunAs, 10000)].

Definition TestPointValue (pointValue : SecurityContextConstraints -> Z)
  : list Failure :=
  let privilegedPoints := 200000 in
  flat_map
    (fun '(userStrategy, userStrategyPoints) =>
       flat_map
         (fun '(seLinuxStrategy, seLinuxStrategyPoints) =>
            expect "privileged"
              (5000 + privilegedPoints + userStrategyPoints
               + seLinuxStrategyPoints)
              (pointValue (newSCC true seLinuxStrategy userStrategy))
            ++ expect "non privileged"
                 (5000 + userStrategyPoints + seLinuxStrategyPoints)
                 (pointValue (newSCC false seLinuxStrategy userStrategy)))
         seLinuxStrategies)
    userStrategies
  ++ expect "volume score" 125000
       (pointValue
          (withVolumes [FSTypeHostPath]
             (newSCC false SELinuxStrategyMustRunAs
                     RunAsUserStrategyMustRunAs))).

(** [securityapi.FSTypeAWSElasticBlockStore]: a volume kind that the switch
    of [volumePointValue] does not name. *)
Definition FSTypeAWSElasticBlockStore : FSType :=
  FSTypeOther "awsElasticBlockStore".

(** [newSCC] of [TestVolumePointValue]. *)
Definition newVolumeSCC (host nonTrivial trivial : bool)
  : SecurityContextConstraints :=
  let volumes := [] in
  let volumes := if host then volumes ++ [FSTypeHostPath] else volumes in
  let volumes :=
    if nonTrivial then volumes ++ [FSTypeAWSElasticBlockStore]
    else volumes in
  let volumes := if trivial then volumes ++ [FSTypeSecret] else volumes in
  withVolumes volumes zeroSCC.

Definition volumeTests : list (string * SecurityContextConstraints * Z) :=
  [("all volumes", withVolumes [FSTypeAll] zeroSCC, 100000);
   ("host volume", newVolumeSCC true false false, 100000);
   ("host volume and non trivial volumes",
    newVolumeSCC true true false, 100000);
   ("host volume, non trivial, and trivial",
    newVolumeSCC true true true, 100000);
   ("non trivial", newVolumeSCC false true false, 50000);
   ("non trivial and trivial", newVolumeSCC false true true, 50000);
   ("trivial", newVolumeSCC false false true, 0);
   ("trivial - secret", withVolumes [FSTypeSecret] zeroSCC, 0);
   ("trivial - configMap", withVolumes [FSTypeConfigMap] zeroSCC, 0);
   ("trivial - emptyDir", withVolumes [FSTypeEmptyDir] zeroSCC, 0);
   ("trivial - downwardAPI", withVolumes [FSTypeDownwardAPI] zeroSCC, 0);
   ("trivial - projected", withVolumes [FSProjected] zeroSCC, 0);
   ("trivial - none", withVolumes [FSTypeNone] zeroSCC, 0);
   ("no volumes allowed", newVolumeSCC false false false, 0);
   ("nil volumes", zeroSCC, 0)].

Definition TestVolumePointValue
           (volumePointValue : SecurityContextConstraints -> Z)
  : list Failure :=
  flat_map (fun '(k, scc, expected) => expect k expected (volumePointValue scc))
           volumeTests.

Definition capabilitiesTests
  : list (string * list Capability * list Capability * list Capability * Z) :=
  [("nothing specified", [], [], [], 5000);
   ("default", ["KILL"; "MKNOD"], [], [], 5600);
   ("allow", [], ["KILL"; "MKNOD"], [], 5020);
   ("allow star", [], ["*"], [], 9000);
   ("allow all", [], ["ALL"], [], 9000);
   ("drop", [], [], ["KILL"; "MKNOD"], 4900);
   ("drop all", [], [], ["ALL"], 2000);
   ("mixture", ["SETUID"; "SETGID"], ["*"], ["SYS_CHROOT"], 9550)].

Definition TestCapabilitiesPointValue
           (capabilitiesPointValue : SecurityContextConstraints -> Z)
  : list Failure :=
  flat_map
    (fun '(k, defaultAdd, allowed, requiredDrop, expected) =>
       expect k expected
         (capabilitiesPointValue
            (mkSCC false [] {| SELinuxType := SELinuxStrategyOther EmptyString |}
                   {| RunAsUserType := RunAsUserStrategyOther EmptyString |}
                   defaultAdd allowed requiredDrop)))
    capabilitiesTests.

End Tests.

(** ** The test tables of [byrestrictions_test.go] *)

Example test_caps_nothing : capabilitiesPointValue (capSCC [] [] []) = 5000.
Proof. reflexivity. Qed.

Example test_caps_default :
  capabilitiesPointValue (capSCC ["KILL"; "MKNOD"] [] []) = 5600.
Proof. reflexivity. Qed.

Example test_caps_allow :
  capabilitiesPointValue (capSCC [] ["KILL"; "MKNOD"] []) = 5020.
Proof. reflexivity. Qed.

Example test_caps_allow_star :
  capabilitiesPointValue (capSCC [] ["*"] []) = 9000.
Proof. reflexivity. Qed.

Example test_caps_allow_all :
  capabilitiesPointValue (capSCC [] ["ALL"] []) = 9000.
Proof. reflexivity. Qed.

Example test_caps_drop :
  capabilitiesPointValue (capSCC [] [] ["KILL"; "MKNOD"]) = 4900.
Proof. reflexivity. Qed.

Example test_caps_drop_all :
  capabilitiesPointValue (capSCC [] [] ["ALL"]) = 2000.
Proof. reflexivity. Qed.

Example test_caps_mixture :
  capabilitiesPointValue
    (capSCC ["SETUID"; "SETGID"] ["*"] ["SYS_CHROOT"]) = 9550.
Proof. reflexivity. Qed.

Example test_volumes_host_nontrivial_trivial :
  volumePointValue
    (withVolumes [FSTypeHostPath; FSTypeOther "awsElasticBlockStore";
                  FSTypeSecret] zeroSCC) = 100000.
Proof. reflexivity. Qed.

Example test_volumes_nontrivial_trivial :
  volumePointValue
    (withVolumes [FSTypeOther "awsElasticBlockStore"; FSTypeSecret] zeroSCC)
  = 50000.
Proof. reflexivity. Qed.

Example test_point_value_host_path :
  pointValue
    (withVolumes [FSTypeHostPath]
       (withSELinux SELinuxStrategyMustRunAs
          (withRunAsUser RunAsUserStrategyMustRunAs zeroSCC))) = 125000.
Proof. reflexivity. Qed.

(** ** Basic facts about the helpers *)

Lemma len_nonneg {A : Type} (l : list A) : 0 <= len l.
Proof. unfold len. lia. Qed.

Lemma len_app {A : Type} (l1 l2 : list A) : len (l1 ++ l2) = len l1 + len l2.
Proof. unfold len. rewrite length_app. lia. Qed.

Lemma len_nil {A : Type} : len (@nil A) = 0.
Proof. reflexivity. Qed.

Lemma len_snoc {A : Type} (l : list A) (x : A) : len (l ++ [x]) = len l + 1.
Proof. unfold len. rewrite length_app. cbn [List.length]. lia. Qed.

Lemma len_cons {A : Type} (x : A) (l : list A) : len (x :: l) = len l + 1.
Proof. unfold len. cbn [List.length]. lia. Qed.

Lemma hasCap_In (needle : Capability) (haystack : list Capability) :
  hasCap needle haystack = true <-> In needle haystack.
Proof.
  induction haystack as [|c rest IH]; cbn [hasCap In].
  - split; [discriminate | tauto].
  - destruct (String.eqb_spec needle c) as [Heq | Hne].
    + split; auto.
    + rewrite IH. split; [auto | intros [Hc | Hin]; congruence].
Qed.

Lemma hasCap_app (needle : Capability) (l1 l2 : list Capability) :
  hasCap needle (l1 ++ l2) = hasCap needle l1 || hasCap needle l2.
Proof.
  induction l1 as [|c rest IH]; cbn [hasCap app]; [reflexivity|].
  destruct (String.eqb needle c); [reflexivity | exact IH].
Qed.

Lemma hasCap_cons_other (needle c : Capability) (l : list Capability) :
  needle <> c -> hasCap needle (c :: l) = hasCap needle l.
Proof.
  intros Hne. cbn [hasCap].
  destruct (String.eqb_spec needle c); [contradiction | reflexivity].
Qed.

Lemma clamp_spec (lo hi z : Z) :
  lo <= hi -> lo <= clamp lo hi z <= hi.
Proof. unfold clamp. lia. Qed.

Lemma clamp_monotone (lo hi x y : Z) :
  x <= y -> clamp lo hi x <= clamp lo hi y.
Proof. unfold clamp. lia. Qed.

(** ** The volume loop *)

Lemma volume_loop (vs : list FSType) (h n : bool) :
  fold_left volumeStep vs (h, n)
  = (h || existsb isHostVolume vs, n || existsb isNonTrivialVolume vs).
Proof.
  revert h n.
  induction vs as [|v vs IH]; intros h n; cbn [fold_left existsb].
  - now rewrite !orb_false_r.
  - destruct v; cbn [volumeStep]; rewrite IH; cbn;
      rewrite ?orb_true_r, ?orb_false_r; reflexivity.
Qed.

Lemma volumePointValue_existsb (scc : SecurityContextConstraints) :
  volumePointValue scc
  = if existsb isHostVolume (Volumes scc) then 100000
    else if existsb isNonTrivialVolume (Volumes scc) then 50000
    else 0.
Proof. unfold volumePointValue. rewrite volume_loop. reflexivity. Qed.

Lemma kapi_volumePointValue_existsb (scc : SecurityContextConstraints) :
  KapiRevision.volumePointValue scc
  = if existsb isHostVolume (Volumes scc) then 10000
    else if existsb isNonTrivialVolume (Volumes scc) then 5000
    else 0.
Proof.
  unfold KapiRevision.volumePointValue. rewrite volume_loop. reflexivity.
Qed.

Lemma volumePointValue_range (scc : SecurityContextConstraints) :
  0 <= volumePointValue scc <= 100000.
Proof.
  rewrite volumePointValue_existsb.
  destruct (existsb isHostVolume (Volumes scc)),
    (existsb isNonTrivialVolume (Volumes scc)); lia.
Qed.

Lemma kapi_volumePointValue_range (scc : SecurityContextConstraints) :
  0 <= KapiRevision.volumePointValue scc <= 10000.
Proof.
  rewrite kapi_volumePointValue_existsb.
  destruct (existsb isHostVolume (Volumes scc)),
    (existsb isNonTrivialVolume (Volumes scc)); lia.
Qed.

(** ** The capability sub-score *)

Lemma capabilitiesPoints_terms (scc : SecurityContextConstraints) :
  capabilitiesPoints scc
  = 5000 + defaultAddPoints (DefaultAddCapabilities scc)
    + allowedPoints (AllowedCapabilities scc)
    - requiredDropPoints (RequiredDropCapabilities scc).
Proof.
  unfold capabilitiesPoints, defaultAddPoints, allowedPoints,
    requiredDropPoints.
  destruct (hasCap CapabilityAll (AllowedCapabilities scc)),
    (hasCap "ALL" (AllowedCapabilities scc)),
    (hasCap "ALL" (RequiredDropCapabilities scc)); lia.
Qed.

Lemma capabilitiesPointValue_clamp (scc : SecurityContextConstraints) :
  capabilitiesPointValue scc = clamp 0 10000 (capabilitiesPoints scc).
Proof.
  unfold capabilitiesPointValue, clamp.
  destruct (Z.gtb_spec (capabilitiesPoints scc) 10000);
    destruct (Z.ltb_spec (capabilitiesPoints scc) 0); lia.
Qed.

Lemma capabilitiesPointValue_range (scc : SecurityContextConstraints) :
  0 <= capabilitiesPointValue scc <= 10000.
Proof. rewrite capabilitiesPointValue_clamp. apply clamp_spec. lia. Qed.

Lemma kapi_capabilitiesPointValue_range (scc : SecurityContextConstraints) :
  0 <= KapiRevision.capabilitiesPointValue scc <= 1000.
Proof.
  unfold KapiRevision.capabilitiesPointValue.
  destruct (Z.gtb_spec (KapiRevision.capabilitiesPoints scc) 1000);
    destruct (Z.ltb_spec (KapiRevision.capabilitiesPoints scc) 0); lia.
Qed.

(** ** The total *)

Lemma pointValue_terms (c : SecurityContextConstraints) :
  pointValue c
  = privilegedPoints c + volumePointValue c + capabilitiesPointValue c
    + seLinuxPoints (SELinuxType (SELinuxContext c))
    + runAsUserPoints (RunAsUserType (RunAsUser c)).
Proof.
  unfold pointValue, privilegedPoints, seLinuxPoints, runAsUserPoints.
  destruct (AllowPrivilegedContainer c), (SELinuxType (SELinuxContext c)),
    (RunAsUserType (RunAsUser c)); lia.
Qed.

Lemma kapi_pointValue_terms (c : SecurityContextConstraints) :
  KapiRevision.pointValue c
  = privilegedPoints c + KapiRevision.volumePointValue c
    + KapiRevision.capabilitiesPointValue c
    + seLinuxPoints (SELinuxType (SELinuxContext c))
    + runAsUserPoints (RunAsUserType (RunAsUser c)).
Proof.
  unfold KapiRevision.pointValue, privilegedPoints, seLinuxPoints,
    runAsUserPoints.
  destruct (AllowPrivilegedContainer c), (SELinuxType (SELinuxContext c)),
    (RunAsUserType (RunAsUser c)); lia.
Qed.

Lemma seLinuxPoints_range (t : SELinuxContextStrategyType) :
  0 <= seLinuxPoints t <= 40000.
Proof. destruct t; cbn; lia. Qed.

Lemma runAsUserPoints_range (t : RunAsUserStrategyType) :
  0 <= runAsUserPoints t <= 40000.
Proof. destruct t; cbn; lia. Qed.

(** Without the privilege flag the score stays below the privilege penalty:
    at most 100000 + 10000 + 40000 + 40000. *)
Lemma pointValue_unprivileged (c : SecurityContextConstraints) :
  AllowPrivilegedContainer c = false -> 0 <= pointValue c <= 190000.
Proof.
  intros Hp. rewrite pointValue_terms. unfold privilegedPoints. rewrite Hp.
  pose proof (volumePointValue_range c).
  pose proof (capabilitiesPointValue_range c).
  pose proof (seLinuxPoints_range (SELinuxType (SELinuxContext c))).
  pose proof (runAsUserPoints_range (RunAsUserType (RunAsUser c))).
  lia.
Qed.

Lemma pointValue_privileged (c : SecurityContextConstraints) :
  AllowPrivilegedContainer c = true -> 200000 <= pointValue c <= 390000.
Proof.
  intros Hp. rewrite pointValue_terms. unfold privilegedPoints. rewrite Hp.
  pose proof (volumePointValue_range c).
  pose proof (capabilitiesPointValue_range c).
  pose proof (seLinuxPoints_range (SELinuxType (SELinuxContext c))).
  pose proof (runAsUserPoints_range (RunAsUserType (RunAsUser c))).
  lia.
Qed.

Lemma kapi_pointValue_unprivileged (c : SecurityContextConstraints) :
  AllowPrivilegedContainer c = false ->
  0 <= KapiRevision.pointValue c <= 91000.
Proof.
  intros Hp. rewrite kapi_pointValue_terms. unfold privilegedPoints.
  rewrite Hp.
  pose proof (kapi_volumePointValue_range c).
  pose proof (kapi_capabilitiesPointValue_range c).
  pose proof (seLinuxPoints_range (SELinuxType (SELinuxContext c))).
  pose proof (runAsUserPoints_range (RunAsUserType (RunAsUser c))).
  lia.
Qed.

Lemma kapi_pointValue_privileged (c : SecurityContextConstraints) :
  AllowPrivilegedContainer c = true -> 200000 <= KapiRevision.pointValue c.
Proof.
  intros Hp. rewrite kapi_pointValue_terms. unfold privilegedPoints.
  rewrite Hp.
  pose proof (kapi_volumePointValue_range c).
  pose proof (kapi_capabilitiesPointValue_range c).
  pose proof (seLinuxPoints_range (SELinuxType (SELinuxContext c))).
  pose proof (runAsUserPoints_range (RunAsUserType (RunAsUser c))).
  lia.
Qed.

(** The bound of [pointValue_unprivileged] is reached. *)
Example loadedUnprivileged_score : pointValue loadedUnprivileged = 190000.
Proof. reflexivity. Qed.

(** ** The sort interface *)

Lemma update_length {A : Type} (l : list A) (n : nat) (x : A) :
  List.length (update l n x) = List.length l.
Proof.
  revert n. induction l as [|h t IH]; intros [|n]; cbn; auto.
Qed.

Lemma Swap_Len (s s' : ByRestrictions) (i j : Z) :
  Swap s i j = Some s' -> Len s' = Len s.
Proof.
  unfold Swap, Len, len.
  destruct (index s i), (index s j); try discriminate.
  intros H. injection H as <-. now rewrite !update_length.
Qed.

(** ** Agreement of the 64-bit evaluation *)

Lemma int64_wrap_small (z : Z) :
  - 2 ^ 63 <= z < 2 ^ 63 -> Int64.wrap z = z.
Proof.
  intros Hz. unfold Int64.wrap.
  rewrite Z.mod_small by lia. lia.
Qed.

(** Removes the wraps whose argument is in range, innermost first. *)
Ltac unwrap :=
  repeat match goal with
         | |- context [Int64.wrap ?z] =>
             rewrite (int64_wrap_small z) by lia
         end.

Lemma int64_capabilitiesPointValue_exact (scc : SecurityContextConstraints) :
  Int64.fits (DefaultAddCapabilities scc) ->
  Int64.fits (AllowedCapabilities scc) ->
  Int64.fits (RequiredDropCapabilities scc) ->
  Int64.capabilitiesPointValue scc = capabilitiesPointValue scc.
Proof.
  unfold Int64.fits. intros Hd Ha Hr.
  pose proof (len_nonneg (DefaultAddCapabilities scc)).
  pose proof (len_nonneg (AllowedCapabilities scc)).
  pose proof (len_nonneg (RequiredDropCapabilities scc)).
  unfold Int64.capabilitiesPointValue, capabilitiesPointValue,
    capabilitiesPoints, Int64.add, Int64.sub, Int64.mul.
  destruct (hasCap CapabilityAll (AllowedCapabilities scc)),
    (hasCap "ALL" (AllowedCapabilities scc)),
    (hasCap "ALL" (RequiredDropCapabilities scc));
    unwrap; reflexivity.
Qed.

Lemma int64_pointValue_exact (c : SecurityContextConstraints) :
  Int64.fits (DefaultAddCapabilities c) ->
  Int64.fits (AllowedCapabilities c) ->
  Int64.fits (RequiredDropCapabilities c) ->
  Int64.pointValue c = pointValue c.
Proof.
  intros Hd Ha Hr.
  unfold Int64.pointValue, pointValue, Int64.add.
  rewrite (int64_capabilitiesPointValue_exact c Hd Ha Hr).
  pose proof (volumePointValue_range c).
  pose proof (capabilitiesPointValue_range c).
  destruct (AllowPrivilegedContainer c), (SELinuxType (SELinuxContext c)),
    (RunAsUserType (RunAsUser c));
    unwrap; reflexivity.
Qed.

(** ** Privilege dominates every other term *)

(** C1. For every pair of profiles A and B, if A allows privileged
    containers and B does not, then the score of A is strictly greater than
    the score of B, whatever the volumes, the two strategies and the three
    capability lists of either profile are.  It holds in both revisions of
    [pointValue]: the penalty 200000 exceeds the largest sum of the other
    terms (190000 in the later revision, 91000 in the earlier one). *)
Theorem privileged_dominates (A B : SecurityContextConstraints) :
  AllowPrivilegedContainer A = true ->
  AllowPrivilegedContainer B = false ->
  pointValue A > pointValue B
  /\ KapiRevision.pointValue A > KapiRevision.pointValue B.
Proof.
  intros HA HB.
  pose proof (pointValue_privileged A HA).
  pose proof (pointValue_unprivileged B HB).
  pose proof (kapi_pointValue_privileged A HA).
  pose proof (kapi_pointValue_unprivileged B HB).
  lia.
Qed.

Lemma privileged_dominates_witness :
  AllowPrivilegedContainer barePrivileged = true
  /\ AllowPrivilegedContainer loadedUnprivileged = false
  /\ pointValue barePrivileged > pointValue loadedUnprivileged
  /\ KapiRevision.pointValue barePrivileged
     > KapiRevision.pointValue loadedUnprivileged.
Proof.
  split; [reflexivity|]. split; [reflexivity|].
  apply (privileged_dominates barePrivileged loadedUnprivileged);
    reflexivity.
Defined.

(** ** SELinux strategy against the capability sub-score *)

(** The weight of a recognized SELinux strategy is the difference it makes
    to the score against an unrecognized one. *)
Lemma seLinux_weight (c : SecurityContextConstraints) (tag : string) :
  pointValue (withSELinux SELinuxStrategyRunAsAny c)
  = pointValue (withSELinux (SELinuxStrategyOther tag) c) + 40000
  /\ pointValue (withSELinux SELinuxStrategyMustRunAs c)
     = pointValue (withSELinux (SELinuxStrategyOther tag) c) + 10000.
Proof.
  rewrite !pointValue_terms. unfold privilegedPoints.
  rewrite !volumePointValue_existsb, !capabilitiesPointValue_clamp,
    !capabilitiesPoints_terms.
  cbn. lia.
Qed.

(** C2. Each SELinux weight should strictly exceed the largest capability
    sub-score, so that a recognized SELinux strategy always scores above an
    unrecognized one whatever the capability lists are.  The code misses
    this for [MustRunAs]: [capabilitiesPointValue] clamps at 10000
    inclusive, which is the [MustRunAs] weight itself, and the two profiles
    below, which differ in the SELinux strategy and the capability lists
    only, both score 10000.  (The earlier revision keeps the ceiling at
    1000, strictly below the weight.) *)
Lemma mustRunAs_ties_with_capabilities :
  AllowPrivilegedContainer mustRunAsAllDropped
  = AllowPrivilegedContainer unrecognizedManyAdded
  /\ Volumes mustRunAsAllDropped = Volumes unrecognizedManyAdded
  /\ RunAsUser mustRunAsAllDropped = RunAsUser unrecognizedManyAdded
  /\ SELinuxType (SELinuxContext mustRunAsAllDropped)
     = SELinuxStrategyMustRunAs
  /\ SELinuxType (SELinuxContext unrecognizedManyAdded)
     = SELinuxStrategyOther EmptyString
  /\ capabilitiesPointValue unrecognizedManyAdded = 10000
  /\ pointValue mustRunAsAllDropped = 10000
  /\ pointValue unrecognizedManyAdded = 10000
  /\ ~ (10000 > capabilitiesPointValue unrecognizedManyAdded)
  /\ ~ (pointValue mustRunAsAllDropped > pointValue unrecognizedManyAdded).
Proof. repeat split; try reflexivity; vm_compute; congruence. Qed.

(** How far the SELinux weights reach in the later revision.  The
    capability sub-score ranges over [0, 10000] and the ceiling is reached.
    The [RunAsAny] weight (40000) strictly exceeds it; the [MustRunAs]
    weight (10000) only equals it.  So, for two profiles that agree on
    privilege, volumes and user strategy, with B's SELinux strategy
    unrecognized: [RunAsAny] for A gives score(A) > score(B); [MustRunAs]
    for A gives score(A) >= score(B), and the two are equal exactly when A's
    capability sub-score is 0 and B's is 10000. *)
Theorem selinux_vs_capabilities :
  (forall c, 0 <= capabilitiesPointValue c <= 10000)
  /\ capabilitiesPointValue unrecognizedManyAdded = 10000
  /\ (forall c tag,
        pointValue (withSELinux SELinuxStrategyRunAsAny c)
        = pointValue (withSELinux (SELinuxStrategyOther tag) c) + 40000
        /\ pointValue (withSELinux SELinuxStrategyMustRunAs c)
           = pointValue (withSELinux (SELinuxStrategyOther tag) c) + 10000)
  /\ (forall A B tag,
        AllowPrivilegedContainer A = AllowPrivilegedContainer B ->
        Volumes A = Volumes B ->
        RunAsUser A = RunAsUser B ->
        SELinuxType (SELinuxContext B) = SELinuxStrategyOther tag ->
        (SELinuxType (SELinuxContext A) = SELinuxStrategyRunAsAny ->
         pointValue A > pointValue B)
        /\ (SELinuxType (SELinuxContext A) = SELinuxStrategyMustRunAs ->
            pointValue A >= pointValue B
            /\ (pointValue A = pointValue B <->
                capabilitiesPointValue A = 0
                /\ capabilitiesPointValue B = 10000))).
Proof.
  split; [exact capabilitiesPointValue_range|].
  split; [reflexivity|].
  split; [exact seLinux_weight|].
  intros A B tag Hp Hv Hu HB.
  pose proof (capabilitiesPointValue_range A) as HcA.
  pose proof (capabilitiesPointValue_range B) as HcB.
  rewrite !(pointValue_terms A), !(pointValue_terms B).
  unfold privilegedPoints. rewrite !volumePointValue_existsb.
  rewrite Hp, Hv, Hu, HB.
  split; intros HA; rewrite HA; cbn [seLinuxPoints]; lia.
Qed.

Lemma selinux_vs_capabilities_witness :
  pointValue runAsAnyAllDropped > pointValue unrecognizedManyAdded
  /\ pointValue mustRunAsAllDropped >= pointValue unrecognizedManyAdded.
Proof.
  destruct selinux_vs_capabilities as (_ & _ & _ & H).
  split.
  - apply (H runAsAnyAllDropped unrecognizedManyAdded EmptyString);
      reflexivity.
  - apply (H mustRunAsAllDropped unrecognizedManyAdded EmptyString);
      reflexivity.
Defined.

(** ** Monotonicity of the capability sub-score *)

Lemma capabilitiesPointValue_le (c1 c2 : SecurityContextConstraints) :
  capabilitiesPoints c1 <= capabilitiesPoints c2 ->
  capabilitiesPointValue c1 <= capabilitiesPointValue c2.
Proof.
  intros H. rewrite !capabilitiesPointValue_clamp.
  now apply clamp_monotone.
Qed.

Lemma defaultAddPoints_snoc (l : list Capability) (c : Capability) :
  defaultAddPoints (l ++ [c]) = defaultAddPoints l + 300.
Proof. unfold defaultAddPoints. rewrite len_snoc. lia. Qed.

(** Appending to the allowed list: the term does not shrink unless a
    wildcard is appended to more than 400 ordinary entries. *)
Lemma allowedPoints_snoc (l : list Capability) (c : Capability) :
  (c <> "*" /\ c <> "ALL") \/ hasWildcard l = true \/ len l <= 400 ->
  allowedPoints l <= allowedPoints (l ++ [c]).
Proof.
  unfold allowedPoints, hasWildcard, CapabilityAll.
  rewrite !hasCap_app, len_snoc. cbn [hasCap].
  pose proof (len_nonneg l).
  destruct (hasCap "*" l), (hasCap "ALL" l),
    (String.eqb_spec "*" c), (String.eqb_spec "ALL" c);
    cbn [orb]; intros [[H1 H2] | [H1 | H1]];
    try congruence; try discriminate; lia.
Qed.

(** Appending to the required-drop list: the term does not shrink unless
    "ALL" is appended to more than 60 ordinary entries. *)
Lemma requiredDropPoints_snoc (l : list Capability) (c : Capability) :
  c <> "ALL" \/ hasCap "ALL" l = true \/ len l <= 60 ->
  requiredDropPoints l <= requiredDropPoints (l ++ [c]).
Proof.
  unfold requiredDropPoints.
  rewrite !hasCap_app, len_snoc. cbn [hasCap].
  pose proof (len_nonneg l).
  destruct (hasCap "ALL" l), (String.eqb_spec "ALL" c); cbn [orb];
    intros [H1 | [H1 | H1]]; try congruence; try discriminate; lia.
Qed.

(** C3, as stated, fails.  Appending the wildcard to 401 allowed
    capabilities replaces the per-entry total 4010 by the fixed 4000 and the
    sub-score drops from 9010 to 9000; appending "ALL" to 61 required drops
    replaces 3050 by the fixed 3000 and the sub-score rises from 1950 to
    2000. *)
Lemma wildcard_append_breaks_monotonicity :
  capabilitiesPointValue (capSCC [] manyAllowed []) = 9010
  /\ capabilitiesPointValue (capSCC [] (manyAllowed ++ ["*"]) []) = 9000
  /\ ~ (capabilitiesPointValue (capSCC [] manyAllowed [])
        <= capabilitiesPointValue (capSCC [] (manyAllowed ++ ["*"]) []))
  /\ capabilitiesPointValue (capSCC [] [] manyDropped) = 1950
  /\ capabilitiesPointValue (capSCC [] [] (manyDropped ++ ["ALL"])) = 2000
  /\ ~ (capabilitiesPointValue (capSCC [] [] (manyDropped ++ ["ALL"]))
        <= capabilitiesPointValue (capSCC [] [] manyDropped)).
Proof. repeat split; try reflexivity; vm_compute; congruence. Qed.

(** C3, amended.  For every profile and every capability [c]: appending [c]
    to [DefaultAddCapabilities] never decreases the capability sub-score;
    appending [c] to [AllowedCapabilities] never decreases it when [c] is not
    a wildcard token, or the list already holds a wildcard, or the list has
    at most 400 entries; appending [c] to [RequiredDropCapabilities] never
    increases it when [c] is not "ALL", or the list already holds "ALL", or
    the list has at most 60 entries. *)
Theorem capabilities_monotone (scc : SecurityContextConstraints)
        (c : Capability) :
  capabilitiesPointValue scc
  <= capabilitiesPointValue
       (withDefaultAdd (DefaultAddCapabilities scc ++ [c]) scc)
  /\ ((c <> "*" /\ c <> "ALL")
      \/ hasWildcard (AllowedCapabilities scc) = true
      \/ len (AllowedCapabilities scc) <= 400 ->
      capabilitiesPointValue scc
      <= capabilitiesPointValue
           (withAllowed (AllowedCapabilities scc ++ [c]) scc))
  /\ (c <> "ALL"
      \/ hasCap "ALL" (RequiredDropCapabilities scc) = true
      \/ len (RequiredDropCapabilities scc) <= 60 ->
      capabilitiesPointValue
        (withRequiredDrop (RequiredDropCapabilities scc ++ [c]) scc)
      <= capabilitiesPointValue scc).
Proof.
  split; [|split].
  - apply capabilitiesPointValue_le. rewrite !capabilitiesPoints_terms.
    cbn [withDefaultAdd DefaultAddCapabilities AllowedCapabilities
         RequiredDropCapabilities].
    rewrite defaultAddPoints_snoc. lia.
  - intros H. apply capabilitiesPointValue_le.
    rewrite !capabilitiesPoints_terms.
    cbn [withAllowed DefaultAddCapabilities AllowedCapabilities
         RequiredDropCapabilities].
    pose proof (allowedPoints_snoc (AllowedCapabilities scc) c H). lia.
  - intros H. apply capabilitiesPointValue_le.
    rewrite !capabilitiesPoints_terms.
    cbn [withRequiredDrop DefaultAddCapabilities AllowedCapabilities
         RequiredDropCapabilities].
    pose proof (requiredDropPoints_snoc (RequiredDropCapabilities scc) c H).
    lia.
Qed.

Lemma capabilities_monotone_witness :
  capabilitiesPointValue (capSCC [] ["KILL"] ["KILL"])
  <= capabilitiesPointValue (capSCC [] ["KILL"; "*"] ["KILL"])
  /\ capabilitiesPointValue (capSCC [] ["KILL"] ["KILL"; "ALL"])
     <= capabilitiesPointValue (capSCC [] ["KILL"] ["KILL"]).
Proof.
  destruct (capabilities_monotone (capSCC [] ["KILL"] ["KILL"]) "*")
    as (_ & Hallow & _).
  destruct (capabilities_monotone (capSCC [] ["KILL"] ["KILL"]) "ALL")
    as (_ & _ & Hdrop).
  split.
  - apply Hallow. right. right. vm_compute. discriminate.
  - apply Hdrop. right. right. vm_compute. discriminate.
Defined.

(** ** The two wildcard tokens of the allowed list *)

(** In the later revision two profiles that are identical except that one
    has [AllowedCapabilities = ["ALL"]] and the other ["*"] have the same
    capability sub-score, and so the same total score. *)
Theorem allowed_ALL_equals_star (scc : SecurityContextConstraints) :
  capabilitiesPointValue (withAllowed ["ALL"] scc)
  = capabilitiesPointValue (withAllowed ["*"] scc)
  /\ pointValue (withAllowed ["ALL"] scc)
     = pointValue (withAllowed ["*"] scc).
Proof.
  assert (H : capabilitiesPointValue (withAllowed ["ALL"] scc)
              = capabilitiesPointValue (withAllowed ["*"] scc)).
  { rewrite !capabilitiesPointValue_clamp, !capabilitiesPoints_terms.
    reflexivity. }
  split; [exact H|].
  rewrite !pointValue_terms, H, !volumePointValue_existsb. reflexivity.
Qed.

(** The earlier revision knows [kapi.CapabilityAll] only: there "ALL" in the
    allowed list counts as one ordinary capability. *)
Lemma kapi_allowed_ALL_is_ordinary :
  KapiRevision.capabilitiesPointValue (capSCC [] ["ALL"] []) = 510
  /\ KapiRevision.capabilitiesPointValue (capSCC [] ["*"] []) = 800.
Proof. split; reflexivity. Qed.

(** C4. Two profiles that are identical except that one has
    [AllowedCapabilities = ["ALL"]] and the other ["*"] should have the same
    capability sub-score and the same total score.  The later revision does
    so for every profile.  The earlier revision does not: it tests for
    [kapi.CapabilityAll] only, so ["*"] adds the allow-all weight 300 while
    ["ALL"] adds 10 like any single capability; its running totals differ
    by 290 for every profile, and with nothing else set the sub-scores are
    510 against 800. *)
Theorem allowed_ALL_vs_star (scc : SecurityContextConstraints) :
  capabilitiesPointValue (withAllowed ["ALL"] scc)
  = capabilitiesPointValue (withAllowed ["*"] scc)
  /\ pointValue (withAllowed ["ALL"] scc)
     = pointValue (withAllowed ["*"] scc)
  /\ KapiRevision.capabilitiesPoints (withAllowed ["*"] scc)
     = KapiRevision.capabilitiesPoints (withAllowed ["ALL"] scc) + 290
  /\ KapiRevision.capabilitiesPointValue (withAllowed ["ALL"] zeroSCC) = 510
  /\ KapiRevision.capabilitiesPointValue (withAllowed ["*"] zeroSCC) = 800
  /\ KapiRevision.pointValue (withAllowed ["ALL"] zeroSCC) = 510
  /\ KapiRevision.pointValue (withAllowed ["*"] zeroSCC) = 800
  /\ KapiRevision.capabilitiesPointValue (withAllowed ["ALL"] zeroSCC)
     <> KapiRevision.capabilitiesPointValue (withAllowed ["*"] zeroSCC).
Proof.
  assert (H : capabilitiesPointValue (withAllowed ["ALL"] scc)
              = capabilitiesPointValue (withAllowed ["*"] scc)).
  { rewrite !capabilitiesPointValue_clamp, !capabilitiesPoints_terms.
    reflexivity. }
  split; [exact H|].
  split.
  { rewrite !pointValue_terms, H, !volumePointValue_existsb. reflexivity. }
  split.
  { unfold KapiRevision.capabilitiesPoints.
    cbn [withAllowed DefaultAddCapabilities AllowedCapabilities
         RequiredDropCapabilities].
    change (hasCap CapabilityAll ["*"]) with true.
    change (hasCap CapabilityAll ["ALL"]) with false.
    cbv beta iota. change (len ["ALL"]) with 1. lia. }
  repeat split; try reflexivity.
  vm_compute. discriminate.
Qed.

(** ** The volume sub-score *)

Lemma existsb_isHostVolume (vs : list FSType) :
  existsb isHostVolume vs = true <-> In FSTypeHostPath vs \/ In FSTypeAll vs.
Proof.
  rewrite existsb_exists. split.
  - intros (v & Hin & Hv). destruct v; try discriminate; auto.
  - intros [H | H]; eexists; (split; [exact H | reflexivity]).
Qed.

Lemma existsb_isNonTrivialVolume (vs : list FSType) :
  existsb isNonTrivialVolume vs = true
  <-> exists v, In v vs /\ isHostVolume v = false
                /\ isTrivialVolume v = false.
Proof.
  rewrite existsb_exists. unfold isNonTrivialVolume.
  split; intros (v & Hin & Hv); exists v; (split; [exact Hin|]).
  - apply andb_true_iff in Hv. rewrite !negb_true_iff in Hv. exact Hv.
  - destruct Hv as [-> ->]. reflexivity.
Qed.

(** C5. The volume sub-score takes one of three values.  It is 100000 when
    the volumes hold [HostPath] or the wildcard [All], whatever else they
    hold; otherwise 50000 when they hold a kind outside the trivial set
    (Secret, ConfigMap, EmptyDir, DownwardAPI, Projected, None); otherwise
    0.  In particular no volumes score 0, and [HostPath] together with any
    other volumes scores the same as [HostPath] alone. *)
Theorem volumePointValue_three_values (scc : SecurityContextConstraints) :
  (volumePointValue scc = 100000 \/ volumePointValue scc = 50000
   \/ volumePointValue scc = 0)
  /\ (In FSTypeHostPath (Volumes scc) \/ In FSTypeAll (Volumes scc) ->
      volumePointValue scc = 100000)
  /\ (~ In FSTypeHostPath (Volumes scc) ->
      ~ In FSTypeAll (Volumes scc) ->
      (exists v, In v (Volumes scc) /\ isTrivialVolume v = false) ->
      volumePointValue scc = 50000)
  /\ (Forall (fun v => isTrivialVolume v = true) (Volumes scc) ->
      volumePointValue scc = 0)
  /\ (Volumes scc = [] -> volumePointValue scc = 0)
  /\ (forall before after,
        volumePointValue
          (withVolumes (before ++ FSTypeHostPath :: after) scc)
        = volumePointValue (withVolumes [FSTypeHostPath] scc)).
Proof.
  split; [|split; [|split; [|split; [|split]]]].
  - rewrite volumePointValue_existsb.
    destruct (existsb isHostVolume (Volumes scc)),
      (existsb isNonTrivialVolume (Volumes scc)); auto.
  - intros H. apply existsb_isHostVolume in H.
    rewrite volumePointValue_existsb, H. reflexivity.
  - intros Hn1 Hn2 (v & Hin & Hv).
    assert (Hhost : existsb isHostVolume (Volumes scc) = false).
    { apply not_true_is_false. rewrite existsb_isHostVolume. tauto. }
    assert (Hnt : existsb isNonTrivialVolume (Volumes scc) = true).
    { apply existsb_isNonTrivialVolume. exists v.
      repeat split; auto. destruct v; try reflexivity; tauto. }
    rewrite volumePointValue_existsb, Hhost, Hnt. reflexivity.
  - intros Hall. rewrite Forall_forall in Hall.
    assert (Hhost : existsb isHostVolume (Volumes scc) = false).
    { apply not_true_is_false. intros H.
      apply existsb_exists in H as (v & Hin & Hv).
      apply Hall in Hin. destruct v; discriminate. }
    assert (Hnt : existsb isNonTrivialVolume (Volumes scc) = false).
    { apply not_true_is_false. intros H.
      apply existsb_isNonTrivialVolume in H as (v & Hin & _ & Hv).
      apply Hall in Hin. congruence. }
    rewrite volumePointValue_existsb, Hhost, Hnt. reflexivity.
  - intros Hnil. unfold volumePointValue. rewrite Hnil. reflexivity.
  - intros before after. rewrite !volumePointValue_existsb.
    cbn [withVolumes Volumes]. rewrite existsb_app. cbn.
    now rewrite orb_true_r.
Qed.

Lemma volumePointValue_three_values_witness :
  volumePointValue
    (withVolumes [FSTypeOther "nfs"; FSTypeHostPath] zeroSCC) = 100000
  /\ volumePointValue
       (withVolumes [FSTypeSecret; FSTypeOther "nfs"] zeroSCC) = 50000
  /\ volumePointValue
       (withVolumes [FSTypeSecret; FSTypeNone] zeroSCC) = 0
  /\ volumePointValue zeroSCC = 0.
Proof.
  destruct (volumePointValue_three_values
              (withVolumes [FSTypeOther "nfs"; FSTypeHostPath] zeroSCC))
    as (_ & Hhigh & _).
  destruct (volumePointValue_three_values
              (withVolumes [FSTypeSecret; FSTypeOther "nfs"] zeroSCC))
    as (_ & _ & Hmid & _).
  destruct (volumePointValue_three_values
              (withVolumes [FSTypeSecret; FSTypeNone] zeroSCC))
    as (_ & _ & _ & Hlow & _).
  destruct (volumePointValue_three_values zeroSCC)
    as (_ & _ & _ & _ & Hnil & _).
  split; [|split; [|split]].
  - apply Hhigh. left. cbn. auto.
  - apply Hmid.
    + cbn. intros [H | [H | []]]; discriminate.
    + cbn. intros [H | [H | []]]; discriminate.
    + exists (FSTypeOther "nfs"). cbn. auto.
  - apply Hlow. cbn. repeat constructor.
  - apply Hnil. reflexivity.
Defined.

(** ** Bounds *)

(** C6. For every profile the capability sub-score is the running total
    clamped to [0, 10000]: a total below 0 gives 0, a total above 10000
    gives 10000; and the total score is a non-negative integer. *)
Theorem scores_bounded (scc : SecurityContextConstraints) :
  0 <= capabilitiesPointValue scc <= 10000
  /\ capabilitiesPointValue scc
     = Z.max 0 (Z.min 10000 (capabilitiesPoints scc))
  /\ 0 <= pointValue scc.
Proof.
  split; [apply capabilitiesPointValue_range|].
  split; [apply capabilitiesPointValue_clamp|].
  destruct (AllowPrivilegedContainer scc) eqn:Hp.
  - pose proof (pointValue_privileged scc Hp). lia.
  - pose proof (pointValue_unprivileged scc Hp). lia.
Qed.

(** The two saturations of C6 do occur. *)
Example capabilities_saturate_low :
  capabilitiesPoints (capSCC [] [] (repeat "KILL" 101)) = -50
  /\ capabilitiesPointValue (capSCC [] [] (repeat "KILL" 101)) = 0.
Proof. split; reflexivity. Qed.

Example capabilities_saturate_high :
  capabilitiesPoints (capSCC (repeat "KILL" 17) [] []) = 10100
  /\ capabilitiesPointValue (capSCC (repeat "KILL" 17) [] []) = 10000.
Proof. split; reflexivity. Qed.

(** ** Unrecognized strategies and empty collections *)

(** C7. An SELinux strategy or a user strategy that is not one of the
    recognized constants adds exactly 0 to the score: the score is then the
    sum of the remaining terms.  Empty volumes give a volume sub-score of 0,
    and each empty capability list adds 0 to the running total of the
    capability sub-score, which is the base 5000 when all three are empty.
    Nothing fails: [pointValue] is a total function, and [Less] on two
    such profiles returns a result. *)
Theorem unrecognized_and_empty_contribute_zero
        (c : SecurityContextConstraints) (tag : string) :
  pointValue c
  = privilegedPoints c + volumePointValue c + capabilitiesPointValue c
    + seLinuxPoints (SELinuxType (SELinuxContext c))
    + runAsUserPoints (RunAsUserType (RunAsUser c))
  /\ seLinuxPoints (SELinuxStrategyOther tag) = 0
  /\ runAsUserPoints (RunAsUserStrategyOther tag) = 0
  /\ pointValue (withSELinux (SELinuxStrategyOther tag) c)
     = privilegedPoints c + volumePointValue c + capabilitiesPointValue c
       + runAsUserPoints (RunAsUserType (RunAsUser c))
  /\ pointValue (withRunAsUser (RunAsUserStrategyOther tag) c)
     = privilegedPoints c + volumePointValue c + capabilitiesPointValue c
       + seLinuxPoints (SELinuxType (SELinuxContext c))
  /\ pointValue
       (withSELinux (SELinuxStrategyOther tag)
          (withRunAsUser (RunAsUserStrategyOther tag) c))
     = privilegedPoints c + volumePointValue c + capabilitiesPointValue c
  /\ volumePointValue (withVolumes [] c) = 0
  /\ capabilitiesPoints (withDefaultAdd [] c)
     = 5000 + allowedPoints (AllowedCapabilities c)
       - requiredDropPoints (RequiredDropCapabilities c)
  /\ capabilitiesPoints (withAllowed [] c)
     = 5000 + defaultAddPoints (DefaultAddCapabilities c)
       - requiredDropPoints (RequiredDropCapabilities c)
  /\ capabilitiesPoints (withRequiredDrop [] c)
     = 5000 + defaultAddPoints (DefaultAddCapabilities c)
       + allowedPoints (AllowedCapabilities c)
  /\ capabilitiesPointValue
       (withDefaultAdd [] (withAllowed [] (withRequiredDrop [] c))) = 5000
  /\ pointValue zeroSCC = 5000
  /\ Less [Some (withSELinux (SELinuxStrategyOther tag) c);
           Some (withRunAsUser (RunAsUserStrategyOther tag) c)] 0 1
     <> None.
Proof.
  split; [apply pointValue_terms|].
  do 2 (split; [reflexivity|]).
  split; [|split; [|split]].
  - rewrite pointValue_terms. unfold privilegedPoints.
    rewrite !volumePointValue_existsb, !capabilitiesPointValue_clamp,
      !capabilitiesPoints_terms.
    cbn. lia.
  - rewrite pointValue_terms. unfold privilegedPoints.
    rewrite !volumePointValue_existsb, !capabilitiesPointValue_clamp,
      !capabilitiesPoints_terms.
    cbn. lia.
  - rewrite pointValue_terms. unfold privilegedPoints.
    rewrite !volumePointValue_existsb, !capabilitiesPointValue_clamp,
      !capabilitiesPoints_terms.
    cbn. lia.
  - split; [reflexivity|].
    split; [rewrite capabilitiesPoints_terms; cbn; lia|].
    split; [rewrite capabilitiesPoints_terms; cbn; lia|].
    split; [rewrite capabilitiesPoints_terms; cbn; lia|].
    split; [reflexivity|].
    split; [reflexivity|].
    cbn. discriminate.
Qed.

(** ** The drop term *)

(** C8. In the drop term only the token "ALL" triggers the fixed
    subtraction of 3000; a list without "ALL" subtracts 50 per entry, a "*"
    entry included.  So the running totals for [["ALL"]] and [["*"]] differ
    by 2950, and the sub-scores differ unless both are clamped at the
    ceiling. *)
Theorem drop_wildcard_is_ALL_only (scc : SecurityContextConstraints) :
  (forall l, hasCap "ALL" l = true ->
             capabilitiesPoints (withRequiredDrop l scc)
             = capabilitiesPoints (withRequiredDrop [] scc) - 3000)
  /\ (forall l, hasCap "ALL" l = false ->
                capabilitiesPoints (withRequiredDrop l scc)
                = capabilitiesPoints (withRequiredDrop [] scc) - 50 * len l)
  /\ capabilitiesPoints (withRequiredDrop ["*"] scc)
     = capabilitiesPoints (withRequiredDrop [] scc) - 50
  /\ capabilitiesPoints (withRequiredDrop ["*"] scc)
     = capabilitiesPoints (withRequiredDrop ["ALL"] scc) + 2950
  /\ (capabilitiesPointValue (withRequiredDrop ["ALL"] scc) < 10000 ->
      capabilitiesPointValue (withRequiredDrop ["ALL"] scc)
      < capabilitiesPointValue (withRequiredDrop ["*"] scc))
  /\ capabilitiesPointValue (capSCC [] [] ["ALL"]) = 2000
  /\ capabilitiesPointValue (capSCC [] [] ["*"]) = 4950.
Proof.
  split; [|split; [|split; [|split; [|split]]]].
  - intros l Hl. rewrite !capabilitiesPoints_terms.
    cbn [withRequiredDrop DefaultAddCapabilities AllowedCapabilities
         RequiredDropCapabilities].
    unfold requiredDropPoints. rewrite Hl. cbn. lia.
  - intros l Hl. rewrite !capabilitiesPoints_terms.
    cbn [withRequiredDrop DefaultAddCapabilities AllowedCapabilities
         RequiredDropCapabilities].
    unfold requiredDropPoints. rewrite Hl. cbn [hasCap].
    rewrite (@len_nil Capability). lia.
  - rewrite !capabilitiesPoints_terms. cbn. lia.
  - rewrite !capabilitiesPoints_terms. cbn. lia.
  - rewrite !capabilitiesPointValue_clamp, !capabilitiesPoints_terms.
    cbn [withRequiredDrop DefaultAddCapabilities AllowedCapabilities
         RequiredDropCapabilities].
    pose proof (len_nonneg (DefaultAddCapabilities scc)).
    pose proof (len_nonneg (AllowedCapabilities scc)).
    unfold clamp, defaultAddPoints, allowedPoints.
    change (requiredDropPoints ["ALL"]) with 3000.
    change (requiredDropPoints ["*"]) with 50.
    destruct (hasCap CapabilityAll (AllowedCapabilities scc)),
      (hasCap "ALL" (AllowedCapabilities scc)); lia.
  - split; reflexivity.
Qed.

Lemma drop_wildcard_is_ALL_only_witness :
  capabilitiesPoints (withRequiredDrop ["KILL"; "ALL"] zeroSCC)
  = capabilitiesPoints (withRequiredDrop [] zeroSCC) - 3000
  /\ capabilitiesPoints (withRequiredDrop ["KILL"; "*"] zeroSCC)
     = capabilitiesPoints (withRequiredDrop [] zeroSCC) - 50 * 2
  /\ capabilitiesPointValue (withRequiredDrop ["ALL"] zeroSCC)
     < capabilitiesPointValue (withRequiredDrop ["*"] zeroSCC).
Proof.
  destruct (drop_wildcard_is_ALL_only zeroSCC)
    as (Hall & Hnone & _ & _ & Hlt & _).
  split; [|split].
  - apply (Hall ["KILL"; "ALL"]). reflexivity.
  - apply (Hnone ["KILL"; "*"]). reflexivity.
  - apply Hlt. vm_compute. reflexivity.
Defined.

(** ** The allow term under a wildcard *)

Lemma allowedPoints_wildcard (l : list Capability) :
  hasWildcard l = true -> allowedPoints l = 4000.
Proof.
  unfold hasWildcard, allowedPoints.
  destruct (hasCap CapabilityAll l), (hasCap "ALL" l);
    try reflexivity; discriminate.
Qed.

(** C9. When [AllowedCapabilities] holds a wildcard token the allow term is
    the fixed 4000, whatever the length of the list: any two allowed lists
    that both hold a wildcard give the same capability sub-score, and so
    inserting an entry anywhere into, or removing one from, a list that
    keeps its wildcard leaves the sub-score unchanged. *)
Theorem allowed_wildcard_fixed_weight (scc : SecurityContextConstraints) :
  (forall l, hasWildcard l = true ->
             capabilitiesPoints (withAllowed l scc)
             = capabilitiesPoints (withAllowed [] scc) + 4000)
  /\ (forall l l', hasWildcard l = true -> hasWildcard l' = true ->
                   capabilitiesPointValue (withAllowed l scc)
                   = capabilitiesPointValue (withAllowed l' scc))
  /\ (forall l1 l2 c, hasWildcard (l1 ++ l2) = true ->
                      capabilitiesPointValue
                        (withAllowed (l1 ++ c :: l2) scc)
                      = capabilitiesPointValue (withAllowed (l1 ++ l2) scc)).
Proof.
  assert (Hsame : forall l l', hasWildcard l = true ->
                               hasWildcard l' = true ->
                               capabilitiesPointValue (withAllowed l scc)
                               = capabilitiesPointValue (withAllowed l' scc)).
  { intros l l' Hl Hl'.
    rewrite !capabilitiesPointValue_clamp, !capabilitiesPoints_terms.
    cbn [withAllowed DefaultAddCapabilities AllowedCapabilities
         RequiredDropCapabilities].
    now rewrite (allowedPoints_wildcard l Hl), (allowedPoints_wildcard l' Hl'). }
  split; [|split].
  - intros l Hl. rewrite !capabilitiesPoints_terms.
    cbn [withAllowed DefaultAddCapabilities AllowedCapabilities
         RequiredDropCapabilities].
    rewrite (allowedPoints_wildcard l Hl). cbn. lia.
  - exact Hsame.
  - intros l1 l2 c H. apply Hsame; [|exact H].
    unfold hasWildcard in *. rewrite !hasCap_app in *.
    cbn [hasCap].
    destruct (hasCap CapabilityAll l1), (hasCap "ALL" l1),
      (hasCap CapabilityAll l2), (hasCap "ALL" l2),
      (String.eqb CapabilityAll c), (String.eqb "ALL" c);
      try reflexivity; discriminate.
Qed.

Lemma allowed_wildcard_fixed_weight_witness :
  capabilitiesPointValue (capSCC [] ["KILL"; "*"; "MKNOD"] [])
  = capabilitiesPointValue (capSCC [] ["ALL"] [])
  /\ capabilitiesPointValue (capSCC [] ["*"; "KILL"; "MKNOD"] [])
     = capabilitiesPointValue (capSCC [] ["*"; "MKNOD"] []).
Proof.
  destruct (allowed_wildcard_fixed_weight (capSCC [] [] []))
    as (_ & Hsame & Hinsert).
  split.
  - apply (Hsame ["KILL"; "*"; "MKNOD"] ["ALL"]); reflexivity.
  - apply (Hinsert ["*"] ["MKNOD"] "KILL"). reflexivity.
Defined.

(** ** The comparator *)

(** C10. The comparison is the strict order induced by the score:
    [less a b] holds exactly when the score of [a] is below the score of
    [b].  So no profile is less than itself, no two profiles are less than
    each other both ways, the comparison is transitive, and two profiles
    with equal scores are unordered in both directions.  The same holds for
    [Less] on the elements of a slice, where [Less s i j] is the comparison
    of the scores of the two elements. *)
Theorem less_strict_order (a b : SecurityContextConstraints) :
  (less a b = true <-> pointValue a < pointValue b)
  /\ less a a = false
  /\ ~ (less a b = true /\ less b a = true)
  /\ (forall c, less a b = true -> less b c = true -> less a c = true)
  /\ (pointValue a = pointValue b -> less a b = false /\ less b a = false)
  /\ (forall s i j,
        Less s i i <> Some true
        /\ ~ (Less s i j = Some true /\ Less s j i = Some true)
        /\ (forall x y,
              index s i = Some (Some x) -> index s j = Some (Some y) ->
              Less s i j = Some (pointValue x <? pointValue y)
              /\ (Less s i j = Some true
                  <-> pointValue x < pointValue y))).
Proof.
  unfold less.
  split; [apply Z.ltb_lt|].
  split; [apply Z.ltb_irrefl|].
  split; [rewrite !Z.ltb_lt; lia|].
  split; [intros c; rewrite !Z.ltb_lt; lia|].
  split; [intros ->; rewrite Z.ltb_irrefl; auto|].
  intros s i j. unfold Less, less.
  split; [|split].
  - destruct (index s i) as [[x|]|]; try discriminate.
    rewrite Z.ltb_irrefl. discriminate.
  - destruct (index s i) as [[x|]|], (index s j) as [[y|]|];
      intros [H1 H2]; try discriminate.
    injection H1 as H1. injection H2 as H2.
    rewrite Z.ltb_lt in H1, H2. lia.
  - intros x y Hx Hy. rewrite Hx, Hy.
    split; [reflexivity|].
    split; intros H.
    + injection H as H. now apply Z.ltb_lt.
    + f_equal. now apply Z.ltb_lt.
Qed.

Lemma less_strict_order_witness :
  less zeroSCC barePrivileged = true
  /\ less (capSCC [] ["ALL"] []) (capSCC [] ["*"] []) = false
  /\ less (capSCC [] ["*"] []) (capSCC [] ["ALL"] []) = false
  /\ less zeroSCC loadedUnprivileged = true
  /\ Less [Some zeroSCC; Some loadedUnprivileged] 0 1 = Some true.
Proof.
  destruct (less_strict_order zeroSCC loadedUnprivileged)
    as (Hiff & _ & _ & Htrans & _ & Hslice).
  destruct (less_strict_order (capSCC [] ["ALL"] []) (capSCC [] ["*"] []))
    as (_ & _ & _ & _ & Heq & _).
  destruct (Hslice [Some zeroSCC; Some loadedUnprivileged] 0 1)
    as (_ & _ & HLess).
  split; [apply Htrans; reflexivity|].
  split; [apply Heq; reflexivity|].
  split; [apply Heq; reflexivity|].
  split; [apply Hiff; reflexivity|].
  apply (HLess zeroSCC loadedUnprivileged eq_refl eq_refl). reflexivity.
Defined.

(** * Further properties of the code *)

(** ** [hasCap] *)

(** X1. [hasCap] is list membership: it answers true exactly when the
    needle occurs in the haystack, so the answer on a concatenation is the
    disjunction of the answers on its parts and does not depend on order or
    repetition. *)
Theorem hasCap_membership (needle : Capability) (l1 l2 : list Capability) :
  (hasCap needle l1 = true <-> In needle l1)
  /\ hasCap needle (l1 ++ l2) = hasCap needle l1 || hasCap needle l2
  /\ hasCap needle (l1 ++ l2) = hasCap needle (l2 ++ l1)
  /\ hasCap needle (l1 ++ l1) = hasCap needle l1.
Proof.
  split; [apply hasCap_In|].
  split; [apply hasCap_app|].
  rewrite !hasCap_app. split; [apply orb_comm | apply orb_diag].
Qed.

(** ** Volumes as a set *)

Lemma existsb_incl {A : Type} (f : A -> bool) (l l' : list A) :
  incl l l' -> existsb f l = true -> existsb f l' = true.
Proof.
  intros Hincl H. apply existsb_exists in H as (x & Hin & Hx).
  apply existsb_exists. exists x. split; auto.
Qed.

(** X2. The volume sub-score and the total score grow with the set of
    allowed volumes: if every volume of [l] is also in [l'], a profile with
    volumes [l] scores no more than the same profile with volumes [l'].
    Hence two volume lists with the same members score the same, whatever
    their order and repetitions. *)
Theorem volumes_monotone (scc : SecurityContextConstraints)
        (l l' : list FSType) :
  (incl l l' ->
   volumePointValue (withVolumes l scc)
   <= volumePointValue (withVolumes l' scc)
   /\ pointValue (withVolumes l scc) <= pointValue (withVolumes l' scc))
  /\ ((forall v, In v l <-> In v l') ->
      volumePointValue (withVolumes l scc)
      = volumePointValue (withVolumes l' scc)
      /\ pointValue (withVolumes l scc) = pointValue (withVolumes l' scc)).
Proof.
  assert (Hmono : forall a b, incl a b ->
            volumePointValue (withVolumes a scc)
            <= volumePointValue (withVolumes b scc)).
  { intros a b Hincl. rewrite !volumePointValue_existsb.
    cbn [withVolumes Volumes].
    pose proof (existsb_incl isHostVolume a b Hincl) as Hh.
    pose proof (existsb_incl isNonTrivialVolume a b Hincl) as Hn.
    destruct (existsb isHostVolume a), (existsb isNonTrivialVolume a),
      (existsb isHostVolume b), (existsb isNonTrivialVolume b);
      try lia; try (discriminate Hh; reflexivity);
      discriminate Hn; reflexivity. }
  assert (Hrest : forall a b,
            pointValue (withVolumes a scc) - volumePointValue (withVolumes a scc)
            = pointValue (withVolumes b scc)
              - volumePointValue (withVolumes b scc)).
  { intros a b. rewrite !pointValue_terms. unfold privilegedPoints.
    rewrite !capabilitiesPointValue_clamp, !capabilitiesPoints_terms.
    cbn [withVolumes AllowPrivilegedContainer SELinuxContext RunAsUser
         DefaultAddCapabilities AllowedCapabilities
         RequiredDropCapabilities].
    lia. }
  split.
  - intros Hincl. pose proof (Hmono l l' Hincl).
    pose proof (Hrest l l'). lia.
  - intros Hsame.
    assert (H1 : incl l l') by (intros v Hv; now apply Hsame).
    assert (H2 : incl l' l) by (intros v Hv; now apply Hsame).
    pose proof (Hmono l l' H1). pose proof (Hmono l' l H2).
    pose proof (Hrest l l'). lia.
Qed.

Lemma volumes_monotone_witness :
  volumePointValue (withVolumes [FSTypeSecret] zeroSCC)
  <= volumePointValue
       (withVolumes [FSTypeOther "nfs"; FSTypeSecret] zeroSCC)
  /\ pointValue (withVolumes [FSTypeHostPath; FSTypeSecret] zeroSCC)
     = pointValue
         (withVolumes [FSTypeSecret; FSTypeHostPath; FSTypeSecret] zeroSCC).
Proof.
  destruct (volumes_monotone zeroSCC [FSTypeSecret]
              [FSTypeOther "nfs"; FSTypeSecret]) as (Hincl & _).
  destruct (volumes_monotone zeroSCC [FSTypeHostPath; FSTypeSecret]
              [FSTypeSecret; FSTypeHostPath; FSTypeSecret]) as (_ & Hsame).
  split.
  - apply Hincl. intros v [<- | []]. cbn. auto.
  - apply Hsame. intros v. cbn. tauto.
Defined.

(** ** What the capability sub-score reads *)

(** X3. The capability sub-score reads the three lists only through their
    lengths and through the presence of a wildcard: two profiles whose
    lists have the same lengths, the same answer to "holds * or ALL" for the
    allowed list and the same answer to "holds ALL" for the required-drop
    list have the same sub-score.  Which capabilities are named, and in
    what order, makes no difference. *)
Theorem capabilities_counts_only (c1 c2 : SecurityContextConstraints) :
  len (DefaultAddCapabilities c1) = len (DefaultAddCapabilities c2) ->
  len (AllowedCapabilities c1) = len (AllowedCapabilities c2) ->
  hasWildcard (AllowedCapabilities c1)
  = hasWildcard (AllowedCapabilities c2) ->
  len (RequiredDropCapabilities c1) = len (RequiredDropCapabilities c2) ->
  hasCap "ALL" (RequiredDropCapabilities c1)
  = hasCap "ALL" (RequiredDropCapabilities c2) ->
  capabilitiesPointValue c1 = capabilitiesPointValue c2.
Proof.
  intros Hd Ha Hw Hr Hall.
  rewrite !capabilitiesPointValue_clamp, !capabilitiesPoints_terms.
  unfold defaultAddPoints, requiredDropPoints. rewrite Hd, Hr, Hall.
  assert (Hallow : allowedPoints (AllowedCapabilities c1)
                   = allowedPoints (AllowedCapabilities c2)).
  { unfold allowedPoints, hasWildcard in *. rewrite Ha.
    destruct (hasCap CapabilityAll (AllowedCapabilities c1)),
      (hasCap "ALL" (AllowedCapabilities c1)),
      (hasCap CapabilityAll (AllowedCapabilities c2)),
      (hasCap "ALL" (AllowedCapabilities c2));
      try reflexivity; discriminate. }
  rewrite Hallow. reflexivity.
Qed.

Lemma capabilities_counts_only_witness :
  capabilitiesPointValue (capSCC ["SYS_ADMIN"] ["NET_RAW"; "KILL"] ["MKNOD"])
  = capabilitiesPointValue (capSCC ["CHOWN"] ["KILL"; "SETUID"] ["KILL"]).
Proof.
  apply (capabilities_counts_only
           (capSCC ["SYS_ADMIN"] ["NET_RAW"; "KILL"] ["MKNOD"])
           (capSCC ["CHOWN"] ["KILL"; "SETUID"] ["KILL"]));
    reflexivity.
Defined.

(** ** The strategy tiers *)

(** X4. For profiles that differ in the user strategy only, the score
    orders the strategies RunAsAny > MustRunAsNonRoot > MustRunAsRange >
    MustRunAs > unrecognized, each step being exactly 10000; for profiles
    that differ in the SELinux strategy only, RunAsAny scores exactly 30000
    above MustRunAs. *)
Theorem strategy_tiers (c : SecurityContextConstraints) (tag : string) :
  pointValue (withRunAsUser RunAsUserStrategyRunAsAny c)
  = pointValue (withRunAsUser RunAsUserStrategyMustRunAsNonRoot c) + 10000
  /\ pointValue (withRunAsUser RunAsUserStrategyMustRunAsNonRoot c)
     = pointValue (withRunAsUser RunAsUserStrategyMustRunAsRange c) + 10000
  /\ pointValue (withRunAsUser RunAsUserStrategyMustRunAsRange c)
     = pointValue (withRunAsUser RunAsUserStrategyMustRunAs c) + 10000
  /\ pointValue (withRunAsUser RunAsUserStrategyMustRunAs c)
     = pointValue (withRunAsUser (RunAsUserStrategyOther tag) c) + 10000
  /\ pointValue (withSELinux SELinuxStrategyRunAsAny c)
     = pointValue (withSELinux SELinuxStrategyMustRunAs c) + 30000.
Proof.
  rewrite !pointValue_terms. unfold privilegedPoints.
  rewrite !volumePointValue_existsb, !capabilitiesPointValue_clamp,
    !capabilitiesPoints_terms.
  cbn [withRunAsUser withSELinux AllowPrivilegedContainer Volumes
       SELinuxContext RunAsUser SELinuxType RunAsUserType
       DefaultAddCapabilities AllowedCapabilities RequiredDropCapabilities
       runAsUserPoints seLinuxPoints].
  repeat split; lia.
Qed.

(** ** Host volumes against strategies and capabilities *)

Lemma volumePointValue_host (c : SecurityContextConstraints) :
  In FSTypeHostPath (Volumes c) \/ In FSTypeAll (Volumes c) ->
  volumePointValue c = 100000.
Proof.
  intros H. apply existsb_isHostVolume in H.
  rewrite volumePointValue_existsb, H. reflexivity.
Qed.

Lemma volumePointValue_trivial (c : SecurityContextConstraints) :
  Forall (fun v => isTrivialVolume v = true) (Volumes c) ->
  volumePointValue c = 0.
Proof.
  intros Hall. rewrite Forall_forall in Hall.
  assert (Hhost : existsb isHostVolume (Volumes c) = false).
  { apply not_true_is_false. intros H.
    apply existsb_exists in H as (v & Hin & Hv).
    apply Hall in Hin. destruct v; discriminate. }
  assert (Hnt : existsb isNonTrivialVolume (Volumes c) = false).
  { apply not_true_is_false. intros H.
    apply existsb_isNonTrivialVolume in H as (v & Hin & _ & Hv).
    apply Hall in Hin. congruence. }
  rewrite volumePointValue_existsb, Hhost, Hnt. reflexivity.
Qed.

(** X5. With the same privilege flag, a profile that allows [HostPath] or
    all volumes scores strictly higher than any profile that allows trivial
    volumes only, whatever the strategies and capability lists of the two
    are: the host-volume weight 100000 exceeds 40000 + 40000 + 10000. *)
Theorem host_volume_dominates (A B : SecurityContextConstraints) :
  AllowPrivilegedContainer A = AllowPrivilegedContainer B ->
  In FSTypeHostPath (Volumes A) \/ In FSTypeAll (Volumes A) ->
  Forall (fun v => isTrivialVolume v = true) (Volumes B) ->
  pointValue A > pointValue B.
Proof.
  intros Hp HA HB.
  rewrite (pointValue_terms A), (pointValue_terms B).
  unfold privilegedPoints.
  rewrite Hp, (volumePointValue_host A HA), (volumePointValue_trivial B HB).
  pose proof (capabilitiesPointValue_range A).
  pose proof (capabilitiesPointValue_range B).
  pose proof (seLinuxPoints_range (SELinuxType (SELinuxContext A))).
  pose proof (seLinuxPoints_range (SELinuxType (SELinuxContext B))).
  pose proof (runAsUserPoints_range (RunAsUserType (RunAsUser A))).
  pose proof (runAsUserPoints_range (RunAsUserType (RunAsUser B))).
  destruct (AllowPrivilegedContainer B); lia.
Qed.

Lemma host_volume_dominates_witness :
  pointValue hostPathAllDropped = 100000
  /\ pointValue loadedTrivialVolumes = 90000
  /\ pointValue hostPathAllDropped > pointValue loadedTrivialVolumes.
Proof.
  split; [reflexivity|]. split; [reflexivity|].
  apply (host_volume_dominates hostPathAllDropped loadedTrivialVolumes).
  - reflexivity.
  - left. cbn. auto.
  - cbn. repeat constructor.
Defined.

(** ** The sort interface: [Len], [Swap], [Less] *)

Lemma index_Some (s : ByRestrictions) (i : Z) :
  (exists p, index s i = Some p) <-> 0 <= i < Len s.
Proof.
  unfold index, Len, len.
  destruct (Z.ltb_spec i 0) as [Hneg | Hpos].
  - split; [intros (p & H); discriminate | lia].
  - split.
    + intros (p & H).
      assert (Hlt : (Z.to_nat i < List.length s)%nat).
      { apply nth_error_Some. congruence. }
      lia.
    + intros H.
      destruct (nth_error s (Z.to_nat i)) as [p|] eqn:E; [eauto|].
      apply nth_error_None in E. lia.
Qed.

Lemma nth_error_update {A : Type} (l : list A) (n m : nat) (x : A) :
  nth_error (update l n x) m
  = if Nat.eqb n m then option_map (fun _ => x) (nth_error l n)
    else nth_error l m.
Proof.
  revert n m. induction l as [|h t IH]; intros [|n] [|m]; cbn;
    try reflexivity.
  - destruct (Nat.eqb n m); reflexivity.
  - apply IH.
Qed.

Lemma update_same {A : Type} (l : list A) (n : nat) (x : A) :
  nth_error l n = Some x -> update l n x = l.
Proof.
  revert n. induction l as [|h t IH]; intros [|n]; cbn; try discriminate.
  - now intros [= ->].
  - intros H. now rewrite IH.
Qed.

Lemma update_permutation {A : Type} (l : list A) (n : nat) (x y : A) :
  nth_error l n = Some y -> Permutation (x :: l) (y :: update l n x).
Proof.
  revert n. induction l as [|h t IH]; intros [|n]; cbn; try discriminate.
  - intros [= ->]. apply perm_swap.
  - intros H. eapply perm_trans; [apply perm_swap|].
    eapply perm_trans; [apply perm_skip, (IH n H)|]. apply perm_swap.
Qed.

Lemma exchange_permutation {A : Type} (l : list A) (i j : nat) (a b : A) :
  nth_error l i = Some a -> nth_error l j = Some b ->
  Permutation l (update (update l i b) j a).
Proof.
  revert i j. induction l as [|h t IH]; intros [|i] [|j]; cbn;
    try discriminate.
  - intros [= ->] [= ->]. reflexivity.
  - intros [= ->] Hj. now apply update_permutation.
  - intros Hi [= ->]. now apply update_permutation.
  - intros Hi Hj. apply perm_skip. now apply IH.
Qed.

Lemma exchange_nth {A : Type} (l : list A) (i j : nat) (a b : A) :
  nth_error l i = Some a -> nth_error l j = Some b ->
  nth_error (update (update l i b) j a) i = Some b
  /\ nth_error (update (update l i b) j a) j = Some a
  /\ (forall k, k <> i -> k <> j ->
                nth_error (update (update l i b) j a) k = nth_error l k).
Proof.
  intros Hi Hj.
  repeat split; [| |intros k Hki Hkj]; rewrite !nth_error_update;
    repeat match goal with
           | |- context [Nat.eqb ?x ?y] =>
               destruct (Nat.eqb_spec x y); subst
           end;
    rewrite ?Hi, ?Hj; cbn; congruence.
Qed.

Lemma Swap_index (s s' : ByRestrictions) (i j : Z) :
  Swap s i j = Some s' ->
  index s' i = index s j
  /\ index s' j = index s i
  /\ (forall k, k <> i -> k <> j -> index s' k = index s k).
Proof.
  intros Hs. unfold Swap in Hs.
  destruct (index s i) as [a|] eqn:Ei; [|discriminate].
  destruct (index s j) as [b|] eqn:Ej; [|discriminate].
  injection Hs as <-.
  unfold index in *.
  destruct (Z.ltb_spec i 0); [discriminate|].
  destruct (Z.ltb_spec j 0); [discriminate|].
  cbv beta iota in Ei, Ej |- *.
  destruct (exchange_nth s (Z.to_nat i) (Z.to_nat j) a b Ei Ej)
    as (H1 & H2 & H3).
  split; [exact H1|]. split; [exact H2|].
  intros k Hki Hkj.
  destruct (Z.ltb_spec k 0); [reflexivity|].
  apply H3; lia.
Qed.

(** X6. [Swap] fails exactly when one of the two indexes is outside
    [0, Len).  When it succeeds the slice keeps its length, the elements at
    [i] and [j] are exchanged, and every other position is unchanged. *)
Theorem Swap_exchanges (s : ByRestrictions) (i j : Z) :
  (Swap s i j = None <-> ~ (0 <= i < Len s /\ 0 <= j < Len s))
  /\ (forall s', Swap s i j = Some s' ->
        Len s' = Len s
        /\ index s' i = index s j
        /\ index s' j = index s i
        /\ (forall k, k <> i -> k <> j -> index s' k = index s k)).
Proof.
  split.
  - pose proof (index_Some s i) as Hi. pose proof (index_Some s j) as Hj.
    unfold Swap.
    destruct (index s i) as [a|], (index s j) as [b|]; split;
      try discriminate; try reflexivity; intros H.
    + exfalso. apply H. split; [apply Hi | apply Hj]; eauto.
    + intros [_ H2]. apply Hj in H2 as (p & Hp). discriminate.
    + intros [H1 _]. apply Hi in H1 as (p & Hp). discriminate.
    + intros [H1 _]. apply Hi in H1 as (p & Hp). discriminate.
  - intros s' Hs. split; [exact (Swap_Len s s' i j Hs)|].
    exact (Swap_index s s' i j Hs).
Qed.

(** X7. [Swap] is its own inverse: swapping the same two positions again
    gives back the slice it started from. *)
Theorem Swap_involutive (s s' : ByRestrictions) (i j : Z) :
  Swap s i j = Some s' -> Swap s' i j = Some s.
Proof.
  intros Hs. unfold Swap in *.
  destruct (index s i) as [a|] eqn:Ei; [|discriminate].
  destruct (index s j) as [b|] eqn:Ej; [|discriminate].
  injection Hs as <-.
  unfold index in *.
  destruct (Z.ltb_spec i 0); [discriminate|].
  destruct (Z.ltb_spec j 0); [discriminate|].
  cbv beta iota in Ei, Ej |- *.
  destruct (exchange_nth s (Z.to_nat i) (Z.to_nat j) a b Ei Ej)
    as (H1 & H2 & H3).
  rewrite H1, H2. f_equal.
  apply nth_error_ext. intros k.
  rewrite !nth_error_update.
  repeat match goal with
         | |- context [Nat.eqb ?x ?y] =>
             destruct (Nat.eqb_spec x y); subst
         end;
    rewrite ?Ei, ?Ej; cbn; congruence.
Qed.

Lemma Swap_involutive_witness :
  Swap [Some zeroSCC; None; Some barePrivileged] 0 2
  = Some [Some barePrivileged; None; Some zeroSCC]
  /\ Swap [Some barePrivileged; None; Some zeroSCC] 0 2
     = Some [Some zeroSCC; None; Some barePrivileged].
Proof.
  split; [reflexivity|].
  apply (Swap_involutive [Some zeroSCC; None; Some barePrivileged]).
  reflexivity.
Defined.

(** X8. A successful [Swap] only rearranges: the result is a permutation
    of the slice, so no profile is lost, duplicated or altered. *)
Theorem Swap_permutation (s s' : ByRestrictions) (i j : Z) :
  Swap s i j = Some s' -> Permutation s s'.
Proof.
  intros Hs. unfold Swap in Hs.
  destruct (index s i) as [a|] eqn:Ei; [|discriminate].
  destruct (index s j) as [b|] eqn:Ej; [|discriminate].
  injection Hs as <-.
  unfold index in *.
  destruct (Z.ltb_spec i 0); [discriminate|].
  destruct (Z.ltb_spec j 0); [discriminate|].
  now apply exchange_permutation.
Qed.

Lemma Swap_permutation_witness :
  Permutation [Some zeroSCC; None; Some barePrivileged]
              [None; Some zeroSCC; Some barePrivileged].
Proof.
  apply (Swap_permutation _ _ 0 1). reflexivity.
Defined.

(** X9. [Less] gives a result exactly when both indexes are inside
    [0, Len) and neither element is a nil pointer; otherwise it panics.
    After a successful [Swap] of [i] and [j], comparing [i] with [j] gives
    what comparing [j] with [i] gave before. *)
Theorem Less_defined (s : ByRestrictions) (i j : Z) :
  (Less s i j <> None
   <-> exists a b, index s i = Some (Some a) /\ index s j = Some (Some b))
  /\ (~ (0 <= i < Len s /\ 0 <= j < Len s) -> Less s i j = None)
  /\ (Forall (fun p => p <> None) s ->
      0 <= i < Len s -> 0 <= j < Len s ->
      exists a b, index s i = Some (Some a) /\ index s j = Some (Some b)
                  /\ Less s i j = Some (pointValue a <? pointValue b))
  /\ (forall s', Swap s i j = Some s' -> Less s' i j = Less s j i).
Proof.
  split; [|split; [|split]].
  - unfold Less.
    destruct (index s i) as [[a|]|], (index s j) as [[b|]|];
      (split; [intros H | intros (x & y & H1 & H2)]);
      try discriminate; try congruence;
      do 2 eexists; split; reflexivity.
  - intros H. unfold Less.
    pose proof (index_Some s i) as Hi. pose proof (index_Some s j) as Hj.
    destruct (index s i) as [[a|]|]; try reflexivity;
      destruct (index s j) as [[b|]|]; try reflexivity.
    exfalso. apply H. split; [apply Hi | apply Hj]; eauto.
  - intros Hall Hi Hj. rewrite Forall_forall in Hall.
    apply index_Some in Hi as (p & Hp). apply index_Some in Hj as (q & Hq).
    assert (Hin : forall k r, index s k = Some r -> In r s).
    { intros k r Hk. unfold index in Hk.
      destruct (k <? 0); [discriminate|].
      eapply nth_error_In; eauto. }
    destruct p as [a|]; [|exfalso; exact (Hall None (Hin i None Hp) eq_refl)].
    destruct q as [b|]; [|exfalso; exact (Hall None (Hin j None Hq) eq_refl)].
    exists a, b. unfold Less, less. rewrite Hp, Hq. auto.
  - intros s' Hs.
    destruct (Swap_index s s' i j Hs) as (H1 & H2 & _).
    unfold Less. rewrite H1, H2. reflexivity.
Qed.

Lemma Swap_exchanges_witness :
  Swap [Some zeroSCC; Some barePrivileged] 0 2 = None
  /\ Len [Some barePrivileged; Some zeroSCC]
     = Len [Some zeroSCC; Some barePrivileged]
  /\ index [Some barePrivileged; Some zeroSCC] 0
     = index [Some zeroSCC; Some barePrivileged] 1.
Proof.
  destruct (Swap_exchanges [Some zeroSCC; Some barePrivileged] 0 2)
    as (Hnone & _).
  destruct (Swap_exchanges [Some zeroSCC; Some barePrivileged] 0 1)
    as (_ & Hsome).
  split.
  - apply Hnone. cbn. lia.
  - destruct (Hsome [Some barePrivileged; Some zeroSCC] eq_refl)
      as (Hlen & Hi & _).
    split; [exact Hlen | exact Hi].
Defined.

Lemma Less_defined_witness :
  Less [Some zeroSCC; Some barePrivileged] 0 5 = None
  /\ (exists a b,
        index [Some zeroSCC; Some barePrivileged] 0 = Some (Some a)
        /\ index [Some zeroSCC; Some barePrivileged] 1 = Some (Some b)
        /\ Less [Some zeroSCC; Some barePrivileged] 0 1
           = Some (pointValue a <? pointValue b))
  /\ Less [Some barePrivileged; Some zeroSCC] 0 1
     = Less [Some zeroSCC; Some barePrivileged] 1 0.
Proof.
  destruct (Less_defined [Some zeroSCC; Some barePrivileged] 0 5)
    as (_ & Hout & _).
  destruct (Less_defined [Some zeroSCC; Some barePrivileged] 0 1)
    as (_ & _ & Hin & Hswap).
  split; [|split].
  - apply Hout. cbn. lia.
  - apply Hin; [|cbn; lia|cbn; lia].
    repeat constructor; discriminate.
  - apply Hswap. reflexivity.
Defined.

(** X10. The comparison is a strict weak order, which is what a
    comparison sort relies on: of three profiles, if the first is less than
    the second then the third is above the first or below the second; being
    unordered (equal scores) is transitive; and any two profiles are either
    ordered one way or the other or have equal scores. *)
Theorem less_weak_order (a b c : SecurityContextConstraints) :
  (less a b = true -> less a c = true \/ less c b = true)
  /\ (less a b = false -> less b a = false ->
      less b c = false -> less c b = false ->
      less a c = false /\ less c a = false)
  /\ (less a b = true \/ less b a = true \/ pointValue a = pointValue b)
  /\ (less a b = false /\ less b a = false
      <-> pointValue a = pointValue b).
Proof.
  unfold less. rewrite !Z.ltb_lt, !Z.ltb_ge. lia.
Qed.

Lemma less_weak_order_witness :
  (less zeroSCC zeroSCC = true \/ less zeroSCC barePrivileged = true)
  /\ less (capSCC [] ["ALL"] []) (capSCC [] ["*"; "KILL"] []) = false
  /\ less (capSCC [] ["*"; "KILL"] []) (capSCC [] ["ALL"] []) = false.
Proof.
  destruct (less_weak_order zeroSCC barePrivileged zeroSCC)
    as (Hneg & _).
  destruct (less_weak_order (capSCC [] ["ALL"] []) (capSCC [] ["*"] [])
              (capSCC [] ["*"; "KILL"] []))
    as (_ & Hinc & _).
  split.
  - apply Hneg. reflexivity.
  - apply Hinc; reflexivity.
Defined.

(** ** Volume tiers against capabilities *)

(** X11. A higher volume tier outweighs any capability setting: of two
    profiles with the same privilege flag and the same two strategies, the
    one with the larger volume sub-score has the strictly larger score,
    however the capability lists of the two are set (the tiers are 50000
    apart, the capability sub-score spans 10000). *)
Theorem volume_tier_outweighs_capabilities
        (A B : SecurityContextConstraints) :
  AllowPrivilegedContainer A = AllowPrivilegedContainer B ->
  SELinuxContext A = SELinuxContext B ->
  RunAsUser A = RunAsUser B ->
  volumePointValue A > volumePointValue B ->
  pointValue A > pointValue B.
Proof.
  intros Hp Hs Hu.
  rewrite (pointValue_terms A), (pointValue_terms B).
  unfold privilegedPoints. rewrite Hp, Hs, Hu.
  pose proof (capabilitiesPointValue_range A).
  pose proof (capabilitiesPointValue_range B).
  rewrite !volumePointValue_existsb.
  destruct (existsb isHostVolume (Volumes A)),
    (existsb isNonTrivialVolume (Volumes A)),
    (existsb isHostVolume (Volumes B)),
    (existsb isNonTrivialVolume (Volumes B)); lia.
Qed.

Lemma volume_tier_outweighs_capabilities_witness :
  pointValue
    (withVolumes [FSTypeOther "nfs"]
       (withRequiredDrop (repeat "KILL" 100) zeroSCC))
  > pointValue (withDefaultAdd (repeat "KILL" 17) zeroSCC).
Proof.
  apply volume_tier_outweighs_capabilities; try reflexivity.
Defined.

(** ** The earlier revision *)

(** X12. In the earlier revision the capability sub-score (at most 1000)
    stays strictly below one SELinux step: for two profiles that agree on
    privilege, volumes and user strategy, with B's SELinux strategy
    unrecognized and A's recognized, score(A) > score(B) however the
    capability lists are set. *)
Theorem kapi_selinux_outweighs_capabilities
        (A B : SecurityContextConstraints) (tag : string) :
  AllowPrivilegedContainer A = AllowPrivilegedContainer B ->
  Volumes A = Volumes B ->
  RunAsUser A = RunAsUser B ->
  SELinuxType (SELinuxContext B) = SELinuxStrategyOther tag ->
  SELinuxType (SELinuxContext A) = SELinuxStrategyRunAsAny
  \/ SELinuxType (SELinuxContext A) = SELinuxStrategyMustRunAs ->
  KapiRevision.pointValue A > KapiRevision.pointValue B.
Proof.
  intros Hp Hv Hu HB HA.
  pose proof (kapi_capabilitiesPointValue_range A).
  pose proof (kapi_capabilitiesPointValue_range B).
  rewrite (kapi_pointValue_terms A), (kapi_pointValue_terms B).
  unfold privilegedPoints. rewrite !kapi_volumePointValue_existsb.
  rewrite Hp, Hv, Hu, HB.
  destruct HA as [-> | ->]; cbn [seLinuxPoints]; lia.
Qed.

Lemma kapi_selinux_outweighs_capabilities_witness :
  KapiRevision.pointValue mustRunAsAllDropped = 10000
  /\ KapiRevision.pointValue unrecognizedManyAdded = 1000
  /\ KapiRevision.pointValue mustRunAsAllDropped
     > KapiRevision.pointValue unrecognizedManyAdded.
Proof.
  split; [reflexivity|]. split; [reflexivity|].
  apply (kapi_selinux_outweighs_capabilities
           mustRunAsAllDropped unrecognizedManyAdded EmptyString);
    try reflexivity.
  right. reflexivity.
Defined.

(** X13. In the earlier revision the capability sub-score lies in
    [0, 1000]; the drop term has no wildcard branch, so every required
    drop, "ALL" included, subtracts 50 and appending one never increases the
    sub-score; appending a default-added capability never decreases it; and
    "ALL" in the allowed list counts like any other capability. *)
Theorem kapi_capabilities (scc : SecurityContextConstraints)
        (l : list Capability) (c : Capability) :
  0 <= KapiRevision.capabilitiesPointValue scc <= 1000
  /\ KapiRevision.capabilitiesPoints (withRequiredDrop l scc)
     = KapiRevision.capabilitiesPoints (withRequiredDrop [] scc)
       - 50 * len l
  /\ KapiRevision.capabilitiesPointValue
       (withRequiredDrop (RequiredDropCapabilities scc ++ [c]) scc)
     <= KapiRevision.capabilitiesPointValue scc
  /\ KapiRevision.capabilitiesPointValue scc
     <= KapiRevision.capabilitiesPointValue
          (withDefaultAdd (DefaultAddCapabilities scc ++ [c]) scc)
  /\ KapiRevision.capabilitiesPointValue (withAllowed ("ALL" :: l) scc)
     = KapiRevision.capabilitiesPointValue (withAllowed ("KILL" :: l) scc).
Proof.
  split; [apply kapi_capabilitiesPointValue_range|].
  unfold KapiRevision.capabilitiesPointValue, KapiRevision.capabilitiesPoints.
  cbn [withRequiredDrop withDefaultAdd withAllowed DefaultAddCapabilities
       AllowedCapabilities RequiredDropCapabilities].
  rewrite !len_snoc, !len_cons, (@len_nil Capability).
  pose proof (len_nonneg (DefaultAddCapabilities scc)).
  pose proof (len_nonneg (AllowedCapabilities scc)).
  pose proof (len_nonneg (RequiredDropCapabilities scc)).
  rewrite !hasCap_cons_other by (unfold CapabilityAll; discriminate).
  destruct (hasCap CapabilityAll (AllowedCapabilities scc)),
    (hasCap CapabilityAll l);
    repeat split; try lia;
    repeat match goal with
           | |- context [?x >? ?y] => destruct (Z.gtb_spec x y)
           | |- context [?x <? ?y] => destruct (Z.ltb_spec x y)
           end; lia.
Qed.

(** X14. The volume sub-score of the later revision is ten times that of
    the earlier one, for every profile; the earlier one takes the values
    10000, 5000 and 0. *)
Theorem volume_scale_between_revisions (scc : SecurityContextConstraints) :
  volumePointValue scc = 10 * KapiRevision.volumePointValue scc
  /\ (KapiRevision.volumePointValue scc = 10000
      \/ KapiRevision.volumePointValue scc = 5000
      \/ KapiRevision.volumePointValue scc = 0).
Proof.
  rewrite volumePointValue_existsb, kapi_volumePointValue_existsb.
  destruct (existsb isHostVolume (Volumes scc)),
    (existsb isNonTrivialVolume (Volumes scc)); split; auto; lia.
Qed.

(** ** No overflow *)

(** X15. Evaluated on signed 64-bit integers the score never wraps: when
    each of the three capability slices has fewer than 2^48 entries, the
    64-bit capability sub-score and total score equal the exact ones, and the
    total lies in [0, 390000]. *)
Theorem score_fits_int64 (c : SecurityContextConstraints) :
  Int64.fits (DefaultAddCapabilities c) ->
  Int64.fits (AllowedCapabilities c) ->
  Int64.fits (RequiredDropCapabilities c) ->
  Int64.capabilitiesPointValue c = capabilitiesPointValue c
  /\ Int64.pointValue c = pointValue c
  /\ 0 <= Int64.pointValue c <= 390000.
Proof.
  intros Hd Ha Hr.
  split; [now apply int64_capabilitiesPointValue_exact|].
  rewrite (int64_pointValue_exact c Hd Ha Hr).
  split; [reflexivity|].
  destruct (AllowPrivilegedContainer c) eqn:Hp.
  - pose proof (pointValue_privileged c Hp). lia.
  - pose proof (pointValue_unprivileged c Hp). lia.
Qed.

Lemma score_fits_int64_witness :
  Int64.capabilitiesPointValue loadedUnprivileged
  = capabilitiesPointValue loadedUnprivileged
  /\ Int64.pointValue loadedUnprivileged = pointValue loadedUnprivileged
  /\ 0 <= Int64.pointValue loadedUnprivileged <= 390000.
Proof.
  apply (score_fits_int64 loadedUnprivileged); reflexivity.
Defined.

(** ** The repository's tests *)

(** X16. The three tests of [byrestrictions_test.go] report no failure on
    the later revision: every combination of privilege, user strategy and
    SELinux strategy scores 5000 plus its three weights, and every row of
    the volume and capability tables gets its expected points.  Run against
    the earlier revision, all 17 checks of [TestPointValue], the six volume
    rows with a non-zero expectation and all eight capability rows fail. *)
Theorem tests_pass_on_later_revision :
  Tests.TestPointValue pointValue = []
  /\ Tests.TestVolumePointValue volumePointValue = []
  /\ Tests.TestCapabilitiesPointValue capabilitiesPointValue = []
  /\ (forall priv se user,
        pointValue (Tests.newSCC priv se user)
        = 5000 + (if priv then 200000 else 0) + seLinuxPoints se
          + runAsUserPoints user)
  /\ List.length (Tests.TestPointValue KapiRevision.pointValue) = 17%nat
  /\ map Tests.failedCase
         (Tests.TestVolumePointValue KapiRevision.volumePointValue)
     = ["all volumes"; "host volume"; "host volume and non trivial volumes";
        "host volume, non trivial, and trivial"; "non trivial";
        "non trivial and trivial"]
  /\ map Tests.failedCase
         (Tests.TestCapabilitiesPointValue
            KapiRevision.capabilitiesPointValue)
     = map (fun t => fst (fst (fst (fst t)))) Tests.capabilitiesTests.
Proof.
  split; [reflexivity|]. split; [reflexivity|]. split; [reflexivity|].
  split; [|repeat split; reflexivity].
  intros [|] se user; destruct se, user; reflexivity.
Qed.
